(** * The inquiry pipeline of [main.py], embedded and checked against its
    specification.

    The program reads the rows of a form-response tab, keeps those whose
    [Status] cell is blank, asks a language model to classify each, stores
    the answer in SQLite, alerts a Slack channel for high scores and
    writes the outcome back to the sheet.  Everything outside the
    interpreter (the model, the JSON decoder, the database driver, the
    webhook, the sheet service) is a field of a [Services] record over
    an arbitrary type of hidden service state, so that each theorem holds
    whatever those services answer. *)

From Stdlib Require Import ZArith Ascii String Lia Sorted.
From stdpp Require Import gmap strings list fin_maps.

Local Open Scope Z_scope.

(** ** Python text

    A [str] is modelled as a [string] whose characters are code points
    below 256. *)

Module PyStr.

(** [str.isspace] on one character.  Below 256 the interpreter counts as
    white space the code points 9-13, 28-32, 133 and 160. *)
Definition isspace (c : ascii) : bool :=
  let n := N_of_ascii c in
  ((9 <=? n) && (n <=? 13) || (28 <=? n) && (n <=? 32)
   || (n =? 133) || (n =? 160))%N.

(** [s.lstrip()] *)
Fixpoint lstrip (s : string) : string :=
  match s with
  | EmptyString => EmptyString
  | String c s' => if isspace c then lstrip s' else s
  end.

Definition is_empty (s : string) : bool :=
  match s with EmptyString => true | String _ _ => false end.

(** [s.rstrip()]: a character is dropped when it is white space and
    nothing is left of what follows it. *)
Fixpoint rstrip (s : string) : string :=
  match s with
  | EmptyString => EmptyString
  | String c s' =>
      let r := rstrip s' in
      if isspace c && is_empty r then EmptyString else String c r
  end.

(** [s.strip()] *)
Definition strip (s : string) : string := rstrip (lstrip s).

(** [old in s] *)
Fixpoint occurs (old s : string) : bool :=
  String.prefix old s
  || match s with
     | EmptyString => false
     | String _ s' => occurs old s'
     end.

(** The scan of [str.replace]: [skip] counts the characters of a match
    already found that are still to be passed over. *)
Fixpoint replace_from (old new : string) (skip : nat) (s : string) : string :=
  match s with
  | EmptyString => EmptyString
  | String c s' =>
      match skip with
      | S k => replace_from old new k s'
      | O =>
          if String.prefix old s
          then new +:+ replace_from old new (String.length old - 1) s'
          else String c (replace_from old new 0 s')
      end
  end.

(** With an empty [old], Python puts [new] before every character and at
    the end. *)
Fixpoint interleave (new s : string) : string :=
  match s with
  | EmptyString => new
  | String c s' => new +:+ String c (interleave new s')
  end.

(** [s.replace(old, new)]: the occurrences of [old] are taken from left
    to right and do not overlap. *)
Definition replace (old new s : string) : string :=
  match old with
  | EmptyString => interleave new s
  | String _ _ => replace_from old new 0 s
  end.

Fixpoint drop (n : nat) (s : string) : string :=
  match n, s with
  | O, _ => s
  | S _, EmptyString => EmptyString
  | S k, String _ s' => drop k s'
  end.

Fixpoint all_chars (P : ascii -> bool) (s : string) : bool :=
  match s with
  | EmptyString => true
  | String c s' => P c && all_chars P s'
  end.

(** No white space at the head. *)
Definition head_ok (s : string) : bool :=
  match s with
  | EmptyString => true
  | String c _ => negb (isspace c)
  end.

(** [c not in s] *)
Definition avoids (c : ascii) (s : string) : bool :=
  all_chars (λ x, negb (Ascii.eqb x c)) s.

End PyStr.

(** ** Python values

    The values that [json.loads] returns and that the cells of a row
    hold.  JSON numbers with a fraction or an exponent decode to floats,
    which are left out of the model. *)

#[warnings="-register-all"]
Inductive pyval : Type :=
  | VNone
  | VBool (b : bool)
  | VInt (z : Z)
  | VStr (s : string)
  | VList (l : list pyval)
  | VDict (d : gmap string pyval).

(** [bool(v)] *)
Definition truthy (v : pyval) : bool :=
  match v with
  | VNone => false
  | VBool b => b
  | VInt z => negb (z =? 0)
  | VStr s => negb (PyStr.is_empty s)
  | VList l => match l with [] => false | _ :: _ => true end
  | VDict d => negb (bool_decide (d = ∅))
  end.

(** [d.get(k)] *)
Definition py_get (d : gmap string pyval) (k : string) : pyval :=
  default VNone (d !! k).

(** [d.get(k, dflt)] *)
Definition py_get_or (d : gmap string pyval) (k : string) (dflt : pyval) : pyval :=
  default dflt (d !! k).

(** [dict(pairs)]: a key that comes again takes the later value. *)
Definition py_dict {V : Type} (pairs : list (string * V)) : gmap string V :=
  foldl (λ m kv, <[kv.1 := kv.2]> m) ∅ pairs.

(** ** The inquiry selector ([fetch_new_inquiries], after the read) *)

(** [dict(zip(header, row))] *)
Definition row_dict (header row : list string) : gmap string string :=
  py_dict (zip header row).

(** [row_dict.get('Status', '').strip() == ''] *)
Definition status_blank (d : gmap string string) : bool :=
  PyStr.is_empty (PyStr.strip (default EmptyString (d !! "Status"%string))).

(** The dictionary appended for the data row at index [i]:
    [row_dict['row_index'] = i + 2]. *)
Definition inquiry_of (header : list string) (i : Z) (row : list string)
  : gmap string pyval :=
  <["row_index"%string := VInt (i + 2)]> (VStr <$> row_dict header row).

(** The [for i, row in enumerate(all_rows)] loop, from index [i] on. *)
Fixpoint select_from (header : list string) (i : Z) (rows : list (list string))
  : list (gmap string pyval) :=
  match rows with
  | [] => []
  | row :: rest =>
      if status_blank (row_dict header row)
      then inquiry_of header i row :: select_from header (i + 1) rest
      else select_from header (i + 1) rest
  end.

(** Lines 42-59 of [fetch_new_inquiries], on the [values] read. *)
Definition select_inquiries (values : list (list string)) : list (gmap string pyval) :=
  match values with
  | [] => []
  | header :: all_rows =>
      if (Z.of_nat (length values) <? 2) then []
      else select_from header 0 all_rows
  end.

(** The selection as the specification words it: the indices of the data
    rows with a blank status, in order, each turned into its inquiry. *)
Definition blank_at (header : list string) (rows : list (list string)) (n : nat) : bool :=
  match rows !! n with
  | Some row => status_blank (row_dict header row)
  | None => false
  end.

Definition blank_indices (header : list string) (rows : list (list string)) : list nat :=
  filter (λ n, blank_at header rows n = true) (seq 0 (length rows)).

Definition inquiry_at (header : list string) (rows : list (list string)) (n : nat)
  : gmap string pyval :=
  inquiry_of header (Z.of_nat n) (default [] (rows !! n)).

(** ** Cleaning the model's answer ([analyze_with_ai], line 79) *)

Definition fence_json : string := "```json".
Definition fence : string := "```".

(** [response.text.strip().replace('```json', '').replace('```', '').strip()] *)
Definition clean_response (text : string) : string :=
  PyStr.strip
    (PyStr.replace fence EmptyString
       (PyStr.replace fence_json EmptyString (PyStr.strip text))).

(** The two replacements, as the scans they are. *)
Definition remove_json (s : string) : string :=
  PyStr.replace_from fence_json EmptyString 0 s.
Definition remove_fence (s : string) : string :=
  PyStr.replace_from fence EmptyString 0 s.

Definition backtick : ascii := "`"%char.

(** The number of back-ticks at the head of a text. *)
Fixpoint backticks (s : string) : nat :=
  match s with
  | EmptyString => O
  | String c s' => if Ascii.eqb c backtick then S (backticks s') else O
  end.

Definition newline : ascii := ascii_of_nat 10.
Definition LF : string := String newline EmptyString.

(** A payload inside a markdown code block, tagged or not. *)
Definition fenced_json (payload : string) : string :=
  fence_json +:+ LF +:+ payload +:+ LF +:+ fence.

Definition fenced_plain (payload : string) : string :=
  fence +:+ LF +:+ payload +:+ LF +:+ fence.

(** ** Exceptions, effects and the services *)

Inductive exn : Type :=
  | AttributeError              (* [.get] on a value that is no dict *)
  | TypeError                   (* [<] between an int and a str, None, list or dict *)
  | KeyError (key : string)     (* [d[key]] on a missing key *)
  | ServiceError (what : string). (* raised inside a library or by a remote service *)

Inductive outcome (A : Type) : Type :=
  | Done (a : A)
  | Raised (e : exn).
Arguments Done {A} a.
Arguments Raised {A} e.

(** The values interpolated into the Slack message of [send_slack_alert]. *)
Record slack_message : Type := {
  msg_company : pyval;
  msg_score : pyval;
  msg_contact : pyval;
  msg_summary : pyval;
  msg_next_step : pyval
}.

(** What [print] writes, with the interpolated values. *)
Inductive line : Type :=
  | LStart
  | LNoData
  | LFound (n : nat)
  | LNoNew
  | LProcessing (company : pyval)
  | LSkipNoDescription
  | LAISuccess (score : pyval)
  | LAIError (e : exn)
  | LSkipAIFailure
  | LStored (company : pyval)
  | LSlackSkipped
  | LSlackSent
  | LSlackFailed (status : Z) (text : string)
  | LSheetUpdated (row : pyval)
  | LFinished.

(** What the run asks of the outside world, in order. *)
Inductive event : Type :=
  | Print (l : line)
  | SheetAuth
  | SheetRead
  | AICall (description : pyval)
  | DBInsert (params : list pyval)
  | SlackPost (m : slack_message)
  | SheetUpdate (row : pyval) (cells : list pyval).

(** The services.  [W] is their hidden state; each call may raise.
    - [sheets_auth]: [get_google_sheets_service];
    - [sheets_get]: the [values().get(...).execute()] of the tab, giving
      the [values] entry of the answer when it has one;
    - [generate_content]: [model.generate_content(prompt)] and the
      [.text] of its answer; the prompt is a fixed template around the
      description;
    - [json_loads]: [json.loads];
    - [db_execute]: connect, the INSERT with its parameters, commit;
    - [requests_post]: the webhook post, giving the status code and the
      body of the answer;
    - [sheets_update]: the [values().update(...).execute()]. *)
Record Services (W : Type) : Type := {
  sheets_auth : W -> outcome unit * W;
  sheets_get : W -> outcome (option (list (list string))) * W;
  generate_content : pyval -> W -> outcome string * W;
  json_loads : string -> outcome pyval;
  db_execute : list pyval -> W -> outcome unit * W;
  requests_post : slack_message -> W -> outcome (Z * string) * W;
  sheets_update : pyval -> list pyval -> W -> outcome unit * W
}.
Arguments sheets_auth {W} _ _.
Arguments sheets_get {W} _ _.
Arguments generate_content {W} _ _ _.
Arguments json_loads {W} _ _.
Arguments db_execute {W} _ _ _.
Arguments requests_post {W} _ _ _.
Arguments sheets_update {W} _ _ _ _.

(** The state a run acts on: the services' own state, the cells of the
    tab as entered (row and column numbers from 1), the parameter tuples
    of the committed inserts into [opportunities], and the trace. *)
Record state (W : Type) : Type := {
  hidden : W;
  sheet : gmap (Z * Z) pyval;
  table : list (list pyval);
  trace : list event
}.
Arguments hidden {W} _.
Arguments sheet {W} _.
Arguments table {W} _.
Arguments trace {W} _.
Arguments Build_state {W} _ _ _ _.

(** Columns of the [opportunities] table that the INSERT names, in order
    ([setup_database.py] adds the auto-increment [id]). *)
Definition insert_columns : list string :=
  ["timestamp"; "company_name"; "contact_email"; "company_website";
   "description"; "status"; "ai_summary"; "alignment_score"]%string.

(** Column F of the tab. *)
Definition col_F : Z := 6.

(** A row of values entered from cell [(r, c)] rightwards; the sheet
    service skips a null and leaves that cell as it is. *)
Fixpoint write_cells (r c : Z) (cells : list pyval) (g : gmap (Z * Z) pyval)
  : gmap (Z * Z) pyval :=
  match cells with
  | [] => g
  | v :: rest =>
      write_cells r (c + 1) rest
        (match v with VNone => g | _ => <[(r, c) := v]> g end)
  end.

(** The range [F{row_index}] names a row when [row_index] is an int. *)
Definition write_back (row : pyval) (cells : list pyval) (g : gmap (Z * Z) pyval)
  : gmap (Z * Z) pyval :=
  match row with
  | VInt r => write_cells r col_F cells g
  | _ => g
  end.

Section Pipeline.

Context {W : Type} (svc : Services W).

Definition M (A : Type) : Type := state W -> outcome A * state W.

Definition ret {A} (a : A) : M A := λ st, (Done a, st).

Definition raise {A} (e : exn) : M A := λ st, (Raised e, st).

Definition bind {A B} (m : M A) (k : A -> M B) : M B :=
  λ st, match m st with
        | (Done a, st') => k a st'
        | (Raised e, st') => (Raised e, st')
        end.

(** [try: body / except Exception as e: handler]: what the body did
    before it raised stays done. *)
Definition try_except {A} (body : M A) (handler : exn -> M A) : M A :=
  λ st, match body st with
        | (Done a, st') => (Done a, st')
        | (Raised e, st') => handler e st'
        end.

Definition lift {A} (o : outcome A) : M A := λ st, (o, st).

Definition emit (e : event) : M unit :=
  λ st, (Done tt, Build_state (hidden st) (sheet st) (table st) (trace st ++ [e])).

(** A call of a service, on the hidden state. *)
Definition call {A} (f : W -> outcome A * W) : M A :=
  λ st, let '(o, w) := f (hidden st) in
        (o, Build_state w (sheet st) (table st) (trace st)).

Definition commit_row (params : list pyval) : M unit :=
  λ st, (Done tt, Build_state (hidden st) (sheet st) (table st ++ [params]) (trace st)).

Definition commit_cells (row : pyval) (cells : list pyval) : M unit :=
  λ st, (Done tt, Build_state (hidden st) (write_back row cells (sheet st)) (table st) (trace st)).

End Pipeline.

Arguments ret {W A} a _.
Arguments raise {W A} e _.
Arguments bind {W A B} m k _.
Arguments try_except {W A} body handler _.
Arguments lift {W A} o _.
Arguments emit {W} e _.
Arguments call {W A} f _.
Arguments commit_row {W} params _.
Arguments commit_cells {W} row cells _.

Notation "x <~ m ;; k" := (bind m (fun x => k))
  (at level 100, m at next level, right associativity).
Notation "m ;;; k" := (bind m (fun _ => k))
  (at level 100, right associativity).

Definition print {W} (l : line) : M (W := W) unit := emit (Print l).

(** [v < n] for an int [n]: ints and bools compare, a str, None, list or
    dict raises. *)
Definition py_lt_int (v : pyval) (n : Z) : outcome bool :=
  match v with
  | VInt z => Done (z <? n)
  | VBool b => Done (Z.b2z b <? n)
  | _ => Raised TypeError
  end.

(** [d[k]] *)
Definition py_getitem (d : gmap string pyval) (k : string) : outcome pyval :=
  match d !! k with
  | Some v => Done v
  | None => Raised (KeyError k)
  end.

(** The parameters of the INSERT of [store_in_database]. *)
Definition insert_params (inquiry ai_result : gmap string pyval) : list pyval :=
  [py_get inquiry "Timestamp";
   py_get inquiry "Company Name";
   py_get inquiry "Contact Email";
   py_get inquiry "Company Website";
   py_get inquiry "Opportunity Description";
   VStr "Processed";
   py_get ai_result "summary";
   py_get ai_result "alignment_score"]%string.

(** The [message] of [send_slack_alert]. *)
Definition alert_message (inquiry ai_result : gmap string pyval) : slack_message :=
  {| msg_company := py_get inquiry "Company Name";
     msg_score := py_get ai_result "alignment_score";
     msg_contact := py_get inquiry "Contact Email";
     msg_summary := py_get ai_result "summary";
     msg_next_step := py_get ai_result "suggested_next_step" |}%string.

(** The [values] row of [update_sheet]. *)
Definition update_cells (ai_result : gmap string pyval) : list pyval :=
  [VStr "Processed"; py_get ai_result "summary"; py_get ai_result "alignment_score"]%string.

Section Program.

Context {W : Type} (svc : Services W).

(** [fetch_new_inquiries] *)
Definition fetch_new_inquiries : M (list (gmap string pyval)) :=
  emit SheetRead ;;;
  result <~ call (sheets_get svc) ;;
  let values := default [] result in
  if Z.of_nat (length values) <? 2
  then (print LNoData ;;; ret [])
  else
    let new_inquiries := select_inquiries values in
    print (LFound (length new_inquiries)) ;;;
    ret new_inquiries.

(** [analyze_with_ai]: the answer is a dict or [None].  The [print] of
    the success line calls [.get] on the decoded value, which raises
    inside the [try] when that value is no dict. *)
Definition analyze_with_ai (description : pyval) : M (option (gmap string pyval)) :=
  try_except
    (emit (AICall description) ;;;
     text <~ call (generate_content svc description) ;;
     let cleaned_response := clean_response text in
     ai_result <~ lift (json_loads svc cleaned_response) ;;
     match ai_result with
     | VDict d =>
         print (LAISuccess (py_get d "alignment_score")) ;;;
         ret (Some d)
     | _ => raise AttributeError
     end)
    (λ e, print (LAIError e) ;;; ret None).

(** What [analyze_with_ai] returns and prints, given the model's reply. *)
Definition classified (reply : outcome string) : option (gmap string pyval) * line :=
  match reply with
  | Raised e => (None, LAIError e)
  | Done text =>
      match json_loads svc (clean_response text) with
      | Raised e => (None, LAIError e)
      | Done (VDict d) => (Some d, LAISuccess (py_get d "alignment_score"))
      | Done _ => (None, LAIError AttributeError)
      end
  end.

(** [store_in_database] *)
Definition store_in_database (inquiry ai_result : gmap string pyval) : M unit :=
  let params := insert_params inquiry ai_result in
  emit (DBInsert params) ;;;
  call (db_execute svc params) ;;;
  commit_row params ;;;
  print (LStored (py_get inquiry "Company Name")).

(** [send_slack_alert] *)
Definition send_slack_alert (inquiry ai_result : gmap string pyval) : M unit :=
  low <~ lift (py_lt_int (py_get_or ai_result "alignment_score" (VInt 0)) 4) ;;
  if low then print LSlackSkipped
  else
    let message := alert_message inquiry ai_result in
    emit (SlackPost message) ;;;
    response <~ call (requests_post svc message) ;;
    if fst response =? 200
    then print LSlackSent
    else print (LSlackFailed (fst response) (snd response)).

(** [update_sheet] *)
Definition update_sheet (row_index : pyval) (ai_result : gmap string pyval) : M unit :=
  let values := update_cells ai_result in
  emit (SheetUpdate row_index values) ;;;
  call (sheets_update svc row_index values) ;;;
  commit_cells row_index values ;;;
  print (LSheetUpdated row_index).

(** The body of the [for inquiry in new_inquiries] loop. *)
Definition process_inquiry (inquiry : gmap string pyval) : M unit :=
  print (LProcessing (py_get inquiry "Company Name")) ;;;
  let description := py_get inquiry "Opportunity Description" in
  if negb (truthy description)
  then print LSkipNoDescription
  else
    ai_analysis <~ analyze_with_ai description ;;
    match ai_analysis with
    | None => print LSkipAIFailure
    | Some d =>
        if negb (truthy (VDict d))
        then print LSkipAIFailure
        else
          store_in_database inquiry d ;;;
          send_slack_alert inquiry d ;;;
          row_index <~ lift (py_getitem inquiry "row_index") ;;
          update_sheet row_index d
    end.

Fixpoint process_all (inquiries : list (gmap string pyval)) : M unit :=
  match inquiries with
  | [] => ret tt
  | inquiry :: rest => process_inquiry inquiry ;;; process_all rest
  end.

(** The [__main__] block.  The configuration at the head of the module
    ([load_dotenv], [genai.configure], the model object) is taken as
    done. *)
Definition main : M unit :=
  print LStart ;;;
  emit SheetAuth ;;;
  call (sheets_auth svc) ;;;
  new_inquiries <~ fetch_new_inquiries ;;
  (match new_inquiries with
   | [] => print LNoNew
   | _ :: _ => process_all new_inquiries
   end) ;;;
  print LFinished.

End Program.

(** The exit status of the interpreter: 0 when the script runs to its
    end, 1 when an exception reaches the top level. *)
Definition exit_status {A} (o : outcome A) : Z :=
  match o with
  | Done _ => 0
  | Raised _ => 1
  end.

(** The events of a kind in a trace. *)
Definition is_post (e : event) : bool :=
  match e with SlackPost _ => true | _ => false end.
Definition is_insert (e : event) : bool :=
  match e with DBInsert _ => true | _ => false end.
Definition is_update (e : event) : bool :=
  match e with SheetUpdate _ _ => true | _ => false end.
Definition is_ai_call (e : event) : bool :=
  match e with AICall _ => true | _ => false end.
Definition is_print (e : event) : bool :=
  match e with Print _ => true | _ => false end.

Definition count (p : event -> bool) (t : list event) : nat :=
  length (List.filter p t).

(** The state with more events in its trace, and with another hidden
    state. *)
Definition extend {W} (st : state W) (evs : list event) : state W :=
  Build_state (hidden st) (sheet st) (table st) (trace st ++ evs).

Definition with_hidden {W} (w : W) (st : state W) : state W :=
  Build_state w (sheet st) (table st) (trace st).

(** ** A decoder for the worked examples

    [json_decode] reads the JSON texts whose numbers are integers and
    whose strings have no [\u] escape, the way [json.loads] does; it
    raises on every other text. *)

Module Json.

Definition is_ws (c : ascii) : bool :=
  let n := N_of_ascii c in ((n =? 32) || (n =? 9) || (n =? 10) || (n =? 13))%N.

Fixpoint skip_ws (s : string) : string :=
  match s with
  | EmptyString => EmptyString
  | String c s' => if is_ws c then skip_ws s' else s
  end.

Definition digit_of (c : ascii) : option Z :=
  let n := N_of_ascii c in
  if ((48 <=? n) && (n <=? 57))%N then Some (Z.of_N n - 48) else None.

(** The digits at the head of [s], folded into [acc]. *)
Fixpoint read_digits (acc : Z) (s : string) : Z * string :=
  match s with
  | EmptyString => (acc, s)
  | String c s' =>
      match digit_of c with
      | Some d => read_digits (10 * acc + d) s'
      | None => (acc, s)
      end
  end.

Definition starts_fraction (s : string) : bool :=
  match s with
  | String c _ => (Ascii.eqb c "." || Ascii.eqb c "e" || Ascii.eqb c "E")%char
  | EmptyString => false
  end.

(** An integer without sign: [0], or a digit from 1 to 9 and more
    digits. *)
Definition read_nat (s : string) : option (Z * string) :=
  match s with
  | String c s' =>
      match digit_of c with
      | Some 0 => if starts_fraction s' then None else Some (0, s')
      | Some d =>
          let '(n, rest) := read_digits d s' in
          if starts_fraction rest then None else Some (n, rest)
      | None => None
      end
  | EmptyString => None
  end.

(** The character an escape stands for: quote, backslash, slash, and
    the letters b, f, n, r, t. *)
Definition unescape (c : ascii) : option ascii :=
  let n := N_of_ascii c in
  if ((n =? 34) || (n =? 92) || (n =? 47))%N then Some c
  else if (n =? 98)%N then Some (ascii_of_nat 8)
  else if (n =? 102)%N then Some (ascii_of_nat 12)
  else if (n =? 110)%N then Some (ascii_of_nat 10)
  else if (n =? 114)%N then Some (ascii_of_nat 13)
  else if (n =? 116)%N then Some (ascii_of_nat 9)
  else None.

(** The characters of a string up to its closing quote. *)
Fixpoint read_string (s : string) : option (string * string) :=
  match s with
  | EmptyString => None
  | String c s' =>
      if (N_of_ascii c =? 34)%N then Some (EmptyString, s')
      else if (N_of_ascii c =? 92)%N then
        match s' with
        | String e s'' =>
            match unescape e, read_string s'' with
            | Some u, Some (body, rest) => Some (String u body, rest)
            | _, _ => None
            end
        | EmptyString => None
        end
      else if (N_of_ascii c <? 32)%N then None
      else
        match read_string s' with
        | Some (body, rest) => Some (String c body, rest)
        | None => None
        end
  end.

Definition quote : ascii := ascii_of_nat 34.

Fixpoint read_value (fuel : nat) (s : string) : option (pyval * string) :=
  match fuel with
  | O => None
  | S f =>
      match skip_ws s with
      | EmptyString => None
      | String c s' as t =>
          if Ascii.eqb c quote then
            match read_string s' with
            | Some (body, rest) => Some (VStr body, rest)
            | None => None
            end
          else if Ascii.eqb c "{" then
            match skip_ws s' with
            | String c' r => if Ascii.eqb c' "}" then Some (VDict ∅, r) else read_members f s' ∅
            | EmptyString => None
            end
          else if Ascii.eqb c "[" then
            match skip_ws s' with
            | String c' r => if Ascii.eqb c' "]" then Some (VList [], r) else read_elements f s' []
            | EmptyString => None
            end
          else if String.prefix "null" t then Some (VNone, PyStr.drop 4 t)
          else if String.prefix "true" t then Some (VBool true, PyStr.drop 4 t)
          else if String.prefix "false" t then Some (VBool false, PyStr.drop 5 t)
          else if Ascii.eqb c "-" then
            match read_nat s' with
            | Some (n, rest) => Some (VInt (- n), rest)
            | None => None
            end
          else
            match read_nat t with
            | Some (n, rest) => Some (VInt n, rest)
            | None => None
            end
      end
  end
with read_elements (fuel : nat) (s : string) (acc : list pyval) : option (pyval * string) :=
  match fuel with
  | O => None
  | S f =>
      match read_value f s with
      | Some (v, rest) =>
          match skip_ws rest with
          | String c r =>
              if Ascii.eqb c "," then read_elements f r (acc ++ [v])
              else if Ascii.eqb c "]" then Some (VList (acc ++ [v]), r)
              else None
          | EmptyString => None
          end
      | None => None
      end
  end
with read_members (fuel : nat) (s : string) (acc : gmap string pyval) : option (pyval * string) :=
  match fuel with
  | O => None
  | S f =>
      match skip_ws s with
      | String q s' =>
          if Ascii.eqb q quote then
            match read_string s' with
            | Some (key, rest) =>
                match skip_ws rest with
                | String c r =>
                    if Ascii.eqb c ":" then
                      match read_value f r with
                      | Some (v, rest') =>
                          match skip_ws rest' with
                          | String c' r' =>
                              if Ascii.eqb c' "," then read_members f r' (<[key := v]> acc)
                              else if Ascii.eqb c' "}" then Some (VDict (<[key := v]> acc), r')
                              else None
                          | EmptyString => None
                          end
                      | None => None
                      end
                    else None
                | EmptyString => None
                end
            | None => None
            end
          else None
      | EmptyString => None
      end
  end.

Definition json_decode (s : string) : outcome pyval :=
  match read_value (2 * String.length s + 2) s with
  | Some (v, rest) =>
      match skip_ws rest with
      | EmptyString => Done v
      | String _ _ => Raised (ServiceError "JSONDecodeError")
      end
  | None => Raised (ServiceError "JSONDecodeError")
  end.

End Json.

(** An example payload is put together from quoted names and values. *)
Definition dq : string := String Json.quote EmptyString.

Definition json_str (s : string) : string := dq +:+ s +:+ dq.

(** ** Scripted services for the worked examples

    The hidden state counts the calls made so far; the tab, the model's
    answer to a description, the outcome of an insert and the webhook's
    status code are given. *)
Definition scripted
    (tab : outcome (option (list (list string))))
    (answer : pyval -> outcome string)
    (insert : list pyval -> outcome unit)
    (status : Z) : Services nat :=
  {| sheets_auth := λ w, (Done tt, S w);
     sheets_get := λ w, (tab, S w);
     generate_content := λ d w, (answer d, S w);
     json_loads := Json.json_decode;
     db_execute := λ p w, (insert p, S w);
     requests_post := λ _ w, (Done (status, "ok"%string), S w);
     sheets_update := λ _ _ w, (Done tt, S w) |}.

Definition start : state nat :=
  {| hidden := O; sheet := ∅; table := []; trace := [] |}.

(** The tab of the specification's scenario: three data rows, the second
    processed, the first without a status cell, the third with a status
    of two spaces. *)
Definition sample_header : list string :=
  ["Timestamp"; "Company Name"; "Contact Email"; "Company Website";
   "Opportunity Description"; "Status"]%string.

Definition sample_tab : list (list string) :=
  [sample_header;
   ["2024-05-01"; "Acme"; "a@acme.pk"; "acme.pk"; "B2B SaaS for logistics"];
   ["2024-05-02"; "Beta"; "b@beta.pk"; "beta.pk"; "Retail app"; "Processed"];
   ["2024-05-03"; "Gamma"; "c@gamma.pk"; "gamma.pk"; "Payroll SaaS"; "  "]]%string.

Definition sample_inquiry : gmap string pyval :=
  inquiry_of sample_header 0
    ["2024-05-01"; "Acme"; "a@acme.pk"; "acme.pk"; "B2B SaaS for logistics"]%string.

(** The answer of the scenario, as text and decoded. *)
Definition sample_answer : string :=
  "{" +:+ json_str "summary" +:+ ":" +:+ json_str "B2B SaaS for logistics"
  +:+ "," +:+ json_str "alignment_score" +:+ ":5"
  +:+ "," +:+ json_str "suggested_next_step" +:+ ":"
  +:+ json_str "Schedule initial screening call" +:+ "}".

Definition sample_result : gmap string pyval :=
  <["summary" := VStr "B2B SaaS for logistics"]>
    (<["alignment_score" := VInt 5]>
       (<["suggested_next_step" := VStr "Schedule initial screening call"]> ∅)).

(** The same answer with the score as a string. *)
Definition string_score_answer : string :=
  "{" +:+ json_str "summary" +:+ ":" +:+ json_str "B2B SaaS for logistics"
  +:+ "," +:+ json_str "alignment_score" +:+ ":" +:+ json_str "5" +:+ "}".

(** A payload whose summary holds three back-ticks. *)
Definition backtick_payload : string :=
  "{" +:+ json_str "summary" +:+ ":" +:+ json_str "a```b" +:+ "}".

Definition all_fine (answer : string) : Services nat :=
  scripted (Done (Some sample_tab)) (λ _, Done answer) (λ _, Done tt) 200.

Definition store_down : Services nat :=
  scripted (Done (Some sample_tab)) (λ _, Done sample_answer)
    (λ _, Raised (ServiceError "OperationalError")) 200.

Definition model_down : Services nat :=
  scripted (Done (Some sample_tab)) (λ _, Raised (ServiceError "ResourceExhausted"))
    (λ _, Done tt) 200.

Definition webhook_down : Services nat :=
  scripted (Done (Some sample_tab)) (λ _, Done sample_answer) (λ _, Done tt) 500.

Definition header_only : Services nat :=
  scripted (Done (Some [sample_header])) (λ _, Done sample_answer) (λ _, Done tt) 200.

Definition string_score_result : gmap string pyval :=
  <["summary" := VStr "B2B SaaS for logistics"]>
    (<["alignment_score" := VStr "5"]> ∅).

(** Services whose sheet refuses every update. *)
Definition sheet_down : Services nat :=
  {| sheets_auth := λ w, (Done tt, S w);
     sheets_get := λ w, (Done (Some sample_tab), S w);
     generate_content := λ _ w, (Done sample_answer, S w);
     json_loads := Json.json_decode;
     db_execute := λ _ w, (Done tt, S w);
     requests_post := λ _ w, (Done (200, "ok"%string), S w);
     sheets_update := λ _ _ w, (Raised (ServiceError "HttpError"), S w) |}.

(** A result whose score is a null. *)
Definition null_score_result : gmap string pyval :=
  <["summary" := VStr "B2B SaaS for logistics"]>
    (<["alignment_score" := VNone]> ∅).

(** A row that ends before its description. *)
Definition no_description_inquiry : gmap string pyval :=
  inquiry_of sample_header 0 ["2024-05-04"; "Delta"; "d@delta.pk"; "delta.pk"]%string.

(** An answer that has a score and no summary, as text and decoded. *)
Definition score_only_answer : string :=
  "{" +:+ json_str "alignment_score" +:+ ":5}".

Definition score_only_result : gmap string pyval :=
  <["alignment_score" := VInt 5]> ∅.

(** A start in which cell G2 of the sheet already holds a text. *)
Definition start_with_G2 : state nat :=
  {| hidden := O; sheet := <[(2, 7) := VStr "old summary"]> ∅;
     table := []; trace := [] |}.

(** The third data row of the scenario, the second one selected. *)
Definition gamma_inquiry : gmap string pyval :=
  inquiry_of sample_header 2
    ["2024-05-03"; "Gamma"; "c@gamma.pk"; "gamma.pk"; "Payroll SaaS"; "  "]%string.

(** Services whose store fails for the company Gamma only. *)
Definition store_down_for_gamma : Services nat :=
  scripted (Done (Some sample_tab)) (λ _, Done sample_answer)
    (λ params,
       match params !! 1%nat with
       | Some (VStr name) =>
           if String.eqb name "Gamma" then Raised (ServiceError "OperationalError")
           else Done tt
       | _ => Done tt
       end) 200.

(** ** The database file ([setup_database.py])

    A database is its tables by name; a table is its columns and its
    rows.  Connecting to a file that does not exist yet gives the empty
    database. *)

Inductive sql_type : Type := TEXT | INTEGER.

Record sql_column : Type := {
  col_name : string;
  col_type : sql_type;
  col_autoincrement : bool   (* INTEGER PRIMARY KEY AUTOINCREMENT *)
}.

Record sql_table : Type := {
  tbl_columns : list sql_column;
  tbl_rows : list (list pyval)
}.

(** The columns of the CREATE TABLE statement. *)
Definition opportunities_columns : list sql_column :=
  [ {| col_name := "id"; col_type := INTEGER; col_autoincrement := true |};
    {| col_name := "timestamp"; col_type := TEXT; col_autoincrement := false |};
    {| col_name := "company_name"; col_type := TEXT; col_autoincrement := false |};
    {| col_name := "contact_email"; col_type := TEXT; col_autoincrement := false |};
    {| col_name := "company_website"; col_type := TEXT; col_autoincrement := false |};
    {| col_name := "description"; col_type := TEXT; col_autoincrement := false |};
    {| col_name := "status"; col_type := TEXT; col_autoincrement := false |};
    {| col_name := "ai_summary"; col_type := TEXT; col_autoincrement := false |};
    {| col_name := "alignment_score"; col_type := INTEGER; col_autoincrement := false |} ].

(** [CREATE TABLE IF NOT EXISTS opportunities (...)], then commit. *)
Definition setup_database (db : gmap string sql_table) : gmap string sql_table :=
  match db !! "opportunities"%string with
  | Some _ => db
  | None =>
      <["opportunities"%string :=
          {| tbl_columns := opportunities_columns; tbl_rows := [] |}]> db
  end.

(** * Properties *)

(** ** Text *)

Module PyStrFacts.
Import PyStr.
#[local] Arguments String.append !_ _ / : simpl nomatch.

Lemma all_chars_lstrip s : all_chars isspace (lstrip s) = all_chars isspace s.
Proof.
  induction s as [|c s IH]; simpl; [done|].
  destruct (isspace c) eqn:Hc; simpl; [done|]. by rewrite Hc.
Qed.

Lemma is_empty_rstrip s : is_empty (rstrip s) = all_chars isspace s.
Proof.
  induction s as [|c s IH]; simpl; [done|].
  rewrite IH. by destruct (isspace c), (all_chars isspace s).
Qed.

(** A text strips to nothing exactly when it is all white space. *)
Lemma is_empty_strip s : is_empty (strip s) = all_chars isspace s.
Proof. unfold strip. by rewrite is_empty_rstrip, all_chars_lstrip. Qed.

Lemma is_empty_true s : is_empty s = true ↔ s = EmptyString.
Proof. by destruct s. Qed.

Lemma append_nil_r s : s +:+ EmptyString = s.
Proof. induction s as [|c s IH]; cbn; [done | by f_equal]. Qed.

Lemma append_assoc (a b c : string) : (a +:+ b) +:+ c = a +:+ (b +:+ c).
Proof. induction a as [|x a IH]; cbn; [done | by f_equal]. Qed.

Lemma is_empty_append a b : is_empty (a +:+ b) = is_empty a && is_empty b.
Proof. by destruct a. Qed.

(** *** [strip] *)

Lemma head_ok_lstrip s : head_ok (lstrip s) = true.
Proof.
  induction s as [|c s IH]; simpl; [done|].
  destruct (isspace c) eqn:Hc; [done|]. simpl. by rewrite Hc.
Qed.

Lemma lstrip_head_ok s : head_ok s = true → lstrip s = s.
Proof. destruct s as [|c s]; simpl; [done|]. by destruct (isspace c). Qed.

Lemma head_ok_rstrip s : head_ok s = true → head_ok (rstrip s) = true.
Proof.
  destruct s as [|c s]; simpl; [done|].
  destruct (isspace c) eqn:Hc; [done|]. simpl. by rewrite Hc.
Qed.

Lemma rstrip_rstrip s : rstrip (rstrip s) = rstrip s.
Proof.
  induction s as [|c s IH]; simpl; [done|].
  destruct (isspace c && is_empty (rstrip s)) eqn:Hc; simpl; [done|].
  by rewrite IH, Hc.
Qed.

Lemma strip_strip s : strip (strip s) = strip s.
Proof.
  unfold strip.
  rewrite (lstrip_head_ok (rstrip (lstrip s))).
  - apply rstrip_rstrip.
  - apply head_ok_rstrip, head_ok_lstrip.
Qed.

Lemma rstrip_blank w : all_chars isspace w = true → rstrip w = EmptyString.
Proof. intros Hw. apply is_empty_true. by rewrite is_empty_rstrip. Qed.

Lemma rstrip_app_blank s w :
  all_chars isspace w = true → rstrip (s +:+ w) = rstrip s.
Proof.
  intros Hw. induction s as [|c s IH]; cbn; [by apply rstrip_blank|].
  by rewrite IH.
Qed.

Lemma strip_app_blank s w :
  all_chars isspace w = true → strip (s +:+ w) = strip s.
Proof.
  intros Hw. unfold strip. induction s as [|c s IH]; cbn.
  - apply is_empty_true. by rewrite is_empty_rstrip, all_chars_lstrip.
  - destruct (isspace c) eqn:Hc; [done|].
    change (String c (s +:+ w)) with (String c s +:+ w).
    by apply rstrip_app_blank.
Qed.

Lemma strip_blank_app w s :
  all_chars isspace w = true → strip (w +:+ s) = strip s.
Proof.
  unfold strip. induction w as [|c w IH]; cbn; [done|].
  destruct (isspace c); [done | done].
Qed.

(** Every text is its stripped core between two runs of white space. *)
Lemma lstrip_split s :
  ∃ w, all_chars isspace w = true ∧ s = w +:+ lstrip s.
Proof.
  induction s as [|c s (w & Hw & IH)]; [by exists EmptyString|].
  cbn. destruct (isspace c) eqn:Hc.
  - exists (String c w). cbn. rewrite Hc, Hw. split; [done | by f_equal].
  - by exists EmptyString.
Qed.

Lemma rstrip_split s :
  ∃ w, all_chars isspace w = true ∧ s = rstrip s +:+ w.
Proof.
  induction s as [|c s (w & Hw & IH)]; [by exists EmptyString|].
  cbn. destruct (isspace c && is_empty (rstrip s)) eqn:Hc.
  - exists (String c s). split; [|done].
    apply andb_true_iff in Hc as [Hc He]. cbn. rewrite Hc. cbn.
    by rewrite <- is_empty_rstrip.
  - exists w. split; [done|]. cbn. by f_equal.
Qed.

Lemma strip_split s :
  ∃ w1 w2, all_chars isspace w1 = true ∧ all_chars isspace w2 = true
           ∧ s = w1 +:+ strip s +:+ w2.
Proof.
  destruct (lstrip_split s) as (w1 & Hw1 & H1).
  destruct (rstrip_split (lstrip s)) as (w2 & Hw2 & H2).
  exists w1, w2. repeat split; [done | done|].
  unfold strip. by rewrite <- H2.
Qed.


(** *** [in] and [replace] *)

Lemma prefix_nil s : String.prefix EmptyString s = true.
Proof. by destruct s. Qed.

Lemma prefix_cons a old b s :
  String.prefix (String a old) (String b s)
  = if decide (a = b) then String.prefix old s else false.
Proof. simpl. destruct (ascii_dec a b), (decide (a = b)); done. Qed.

Lemma prefix_sep old a c b :
  avoids c old = true → String.prefix old (a +:+ String c b) = String.prefix old a.
Proof.
  revert a. induction old as [|o old IH]; intros a Hc.
  - by rewrite !prefix_nil.
  - cbn in Hc. apply andb_true_iff in Hc as [Ho Hc].
    destruct a as [|x a]; cbn [String.append].
    + rewrite prefix_cons. case_decide as Heq; [|done].
      subst. by rewrite Ascii.eqb_refl in Ho.
    + rewrite !prefix_cons. case_decide; [by apply IH | done].
Qed.

Lemma prefix_app_r old a t :
  String.prefix old a = true → String.prefix old (a +:+ t) = true.
Proof.
  revert a. induction old as [|o old IH]; intros a; [by rewrite !prefix_nil|].
  destruct a as [|x a]; [done|]. cbn [String.append]. rewrite !prefix_cons.
  case_decide; [apply IH | done].
Qed.

Lemma prefix_app_l a b t :
  String.prefix (a +:+ b) t = true → String.prefix a t = true.
Proof.
  revert t. induction a as [|x a IH]; intros t; [by rewrite prefix_nil|].
  destruct t as [|y t]; [done|]. cbn [String.append]. rewrite !prefix_cons.
  case_decide; [apply IH | done].
Qed.

Lemma drop_prefix_app old a t :
  String.prefix old a = true →
  drop (String.length old) (a +:+ t) = drop (String.length old) a +:+ t.
Proof.
  revert a. induction old as [|o old IH]; intros a; [done|].
  destruct a as [|x a]; [done|]. rewrite prefix_cons.
  case_decide; [apply IH | done].
Qed.

Lemma length_drop n s : (String.length (drop n s) ≤ String.length s)%nat.
Proof.
  revert s. induction n as [|n IH]; intros [|c s]; simpl; try lia.
  specialize (IH s). lia.
Qed.

Lemma string_length_ind (P : string → Prop) :
  (∀ s, (∀ t, (String.length t < String.length s)%nat → P t) → P s) → ∀ s, P s.
Proof.
  intros step s. remember (String.length s) as n eqn:Hn.
  revert s Hn. induction n as [n IH] using lt_wf_ind.
  intros s ->. apply step. intros t Ht. by apply (IH (String.length t)).
Qed.

Lemma replace_from_skip old new k s :
  replace_from old new k s = replace_from old new 0 (drop k s).
Proof.
  revert k. induction s as [|c s IH]; intros [|k]; try done.
  simpl. apply IH.
Qed.

(** The scan, one step at a time. *)
Lemma replace_from_step o old new c s :
  replace_from (String o old) new 0 (String c s)
  = if String.prefix (String o old) (String c s)
    then new +:+ replace_from (String o old) new 0 (drop (String.length old) s)
    else String c (replace_from (String o old) new 0 s).
Proof.
  cbn [replace_from]. destruct (String.prefix _ _); [|done].
  rewrite replace_from_skip.
  by replace (String.length (String o old) - 1)%nat with (String.length old)
    by (simpl; lia).
Qed.

Lemma occurs_cons old c s :
  occurs old (String c s) = String.prefix old (String c s) || occurs old s.
Proof. done. Qed.

(** Where [old] does not occur, nothing is replaced. *)
Lemma replace_from_absent old new s :
  occurs old s = false → replace_from old new 0 s = s.
Proof.
  induction s as [|c s IH]; [done|]. rewrite occurs_cons.
  intros [Hp Hs]%orb_false_iff. cbn [replace_from]. rewrite Hp. by rewrite IH.
Qed.

(** A character that [old] does not contain cuts the scan in two. *)
Lemma replace_from_sep o old new c a b :
  avoids c (String o old) = true →
  replace_from (String o old) new 0 (a +:+ String c b)
  = replace_from (String o old) new 0 a
    +:+ String c (replace_from (String o old) new 0 b).
Proof.
  intros Hc. induction a as [a IH] using string_length_ind.
  destruct a as [|x a].
  - pose proof (prefix_sep (String o old) EmptyString c b Hc) as Hp.
    cbn [String.append] in *. rewrite replace_from_step, Hp. done.
  - cbn [String.append]. rewrite !replace_from_step.
    change (String x (a +:+ String c b)) with (String x a +:+ String c b).
    rewrite prefix_sep by done.
    destruct (String.prefix (String o old) (String x a)) eqn:Hp.
    + rewrite prefix_cons in Hp. case_decide; [|done].
      rewrite drop_prefix_app by done. rewrite IH, append_assoc; [done|].
      pose proof (length_drop (String.length old) a). simpl. lia.
    + cbn [String.append]. rewrite IH; [done | simpl; lia].
Qed.

Lemma replace_from_blank_l o old new w s :
  (∀ c, isspace c = true → avoids c (String o old) = true) →
  all_chars isspace w = true →
  replace_from (String o old) new 0 (w +:+ s)
  = w +:+ replace_from (String o old) new 0 s.
Proof.
  intros Hsep. induction w as [|c w IH]; [done|].
  cbn [all_chars]. intros [Hc Hw]%andb_true_iff.
  change (String c w +:+ s) with (EmptyString +:+ String c (w +:+ s)).
  rewrite (replace_from_sep o old new c EmptyString (w +:+ s) (Hsep c Hc)).
  by rewrite IH.
Qed.

Lemma replace_from_blank_r o old new w s :
  (∀ c, isspace c = true → avoids c (String o old) = true) →
  all_chars isspace w = true →
  replace_from (String o old) new 0 (s +:+ w)
  = replace_from (String o old) new 0 s +:+ w.
Proof.
  intros Hsep Hw. destruct w as [|c w]; [by rewrite !append_nil_r|].
  cbn [all_chars] in Hw. apply andb_true_iff in Hw as [Hc Hw].
  rewrite (replace_from_sep o old new c s w (Hsep c Hc)).
  pose proof (replace_from_blank_l o old new w EmptyString Hsep Hw) as H.
  cbn [replace_from] in H. rewrite !append_nil_r in H. by rewrite H.
Qed.

Lemma occurs_app_r old a b : occurs old (a +:+ b) = false → occurs old b = false.
Proof.
  induction a as [|x a IH]; [done|]. cbn [String.append]. rewrite occurs_cons.
  intros [_ H]%orb_false_iff. by apply IH.
Qed.

Lemma occurs_app_l old a b : occurs old (a +:+ b) = false → occurs old a = false.
Proof.
  induction a as [|x a IH].
  - cbn [String.append]. destruct old as [|o old]; [|done].
    destruct b; simpl; done.
  - cbn [String.append]. rewrite !occurs_cons.
    intros [Hp H]%orb_false_iff. apply orb_false_iff. split; [|by apply IH].
    destruct (String.prefix old (String x a)) eqn:Hpa; [|done].
    apply (prefix_app_r _ _ b) in Hpa. cbn [String.append] in Hpa. congruence.
Qed.

Lemma occurs_strip old s : occurs old s = false → occurs old (strip s) = false.
Proof.
  intros H. destruct (strip_split s) as (w1 & w2 & _ & _ & Hs).
  rewrite Hs in H. by apply occurs_app_r, occurs_app_l in H.
Qed.

Lemma occurs_longer a b s : occurs a s = false → occurs (a +:+ b) s = false.
Proof.
  induction s as [|c s IH].
  - by destruct a.
  - rewrite !occurs_cons. intros [Hp H]%orb_false_iff.
    apply orb_false_iff. split; [|by apply IH].
    destruct (String.prefix (a +:+ b) (String c s)) eqn:Hp'; [|done].
    apply prefix_app_l in Hp'. congruence.
Qed.


Lemma prefix_app_self old s : String.prefix old (old +:+ s) = true.
Proof.
  induction old as [|o old IH]; [apply prefix_nil|].
  cbn [String.append]. rewrite prefix_cons. by rewrite decide_True.
Qed.

Lemma drop_app_length old s : drop (String.length old) (old +:+ s) = s.
Proof. induction old as [|o old IH]; [done | apply IH]. Qed.

(** A match at the head is replaced and the scan goes on behind it. *)
Lemma replace_from_head o old new s :
  replace_from (String o old) new 0 (String o old +:+ s)
  = new +:+ replace_from (String o old) new 0 s.
Proof.
  cbn [String.append]. rewrite replace_from_step.
  change (String o (old +:+ s)) with (String o old +:+ s).
  by rewrite prefix_app_self, drop_app_length.
Qed.

Lemma rstrip_app_keep a b :
  is_empty (rstrip b) = false → rstrip (a +:+ b) = a +:+ rstrip b.
Proof.
  intros Hb. induction a as [|c a IH]; [done|].
  cbn [String.append rstrip]. rewrite IH.
  rewrite is_empty_append, Hb, !andb_false_r. done.
Qed.

End PyStrFacts.

(** ** Cleaning the answer *)

Module CleanFacts.
Import PyStr PyStrFacts.
#[local] Arguments String.append !_ _ / : simpl nomatch.

Lemma clean_response_eq text :
  clean_response text = strip (remove_fence (remove_json (strip text))).
Proof. done. Qed.

Lemma prefix_tick t s :
  String.prefix (String backtick t) s
  = match s with
    | EmptyString => false
    | String c s' => Ascii.eqb c backtick && String.prefix t s'
    end.
Proof.
  destruct s as [|c s']; [done|]. rewrite prefix_cons.
  destruct (Ascii.eqb_spec c backtick) as [->|Hc].
  - by rewrite decide_True.
  - rewrite decide_False; [done | by intros <-].
Qed.

Lemma prefix_fence s : String.prefix fence s = (3 <=? backticks s)%nat.
Proof.
  change fence with (String backtick (String backtick (String backtick EmptyString))).
  destruct s as [|a [|b [|c s]]]; rewrite ?prefix_tick; cbn [backticks];
    try destruct (Ascii.eqb a backtick);
    try destruct (Ascii.eqb b backtick);
    try destruct (Ascii.eqb c backtick);
    rewrite ?prefix_nil; done.
Qed.

Lemma isspace_avoids_fence_json c : isspace c = true → avoids c fence_json = true.
Proof. destruct c as [[] [] [] [] [] [] [] []]; by vm_compute. Qed.

Lemma isspace_avoids_fence c : isspace c = true → avoids c fence = true.
Proof. destruct c as [[] [] [] [] [] [] [] []]; by vm_compute. Qed.

(** After [replace('```', '')] no fence is left: a run of back-ticks
    keeps fewer than three of them. *)
Lemma remove_fence_inv s :
  occurs fence (remove_fence s) = false
  ∧ (backticks (remove_fence s) ≤ backticks s)%nat.
Proof.
  induction s as [s IH] using string_length_ind.
  destruct s as [|c s]; [done|].
  unfold remove_fence, fence in *. rewrite replace_from_step. fold fence in *.
  destruct (String.prefix fence (String c s)) eqn:Hp.
  - cbn [String.append String.length].
    destruct (IH (drop 2 s)) as [Ho Hb].
    { pose proof (length_drop 2 s). cbn [String.length]. lia. }
    split; [done|]. etrans; [done|].
    rewrite prefix_fence in Hp. apply Nat.leb_le in Hp.
    destruct s as [|a [|b s]]; cbn [backticks drop] in *;
      repeat match goal with
             | |- context [Ascii.eqb ?x backtick] => destruct (Ascii.eqb x backtick)
             | H : context [Ascii.eqb ?x backtick] |- _ => destruct (Ascii.eqb x backtick)
             end; lia.
  - destruct (IH s) as [Ho Hb]; [cbn [String.length]; lia|].
    rewrite prefix_fence in Hp. apply Nat.leb_gt in Hp.
    cbn [backticks] in *.
    split.
    + rewrite occurs_cons, Ho, orb_false_r, prefix_fence. apply Nat.leb_gt.
      cbn [backticks]. destruct (Ascii.eqb c backtick); lia.
    + destruct (Ascii.eqb c backtick); lia.
Qed.


Lemma remove_json_absent s : occurs fence s = false → remove_json s = s.
Proof.
  intros H. apply replace_from_absent.
  change fence_json with (fence +:+ "json"). by apply occurs_longer.
Qed.

Lemma remove_fence_absent s : occurs fence s = false → remove_fence s = s.
Proof. apply replace_from_absent. Qed.

(** A text without back-tick fence is only stripped. *)
Lemma clean_response_absent text :
  occurs fence text = false → clean_response text = strip text.
Proof.
  intros H. apply occurs_strip in H. rewrite clean_response_eq.
  rewrite remove_json_absent, remove_fence_absent by done. apply strip_strip.
Qed.

Lemma clean_response_no_fence text : occurs fence (clean_response text) = false.
Proof. rewrite clean_response_eq. apply occurs_strip, remove_fence_inv. Qed.

Lemma clean_response_idem text :
  clean_response (clean_response text) = clean_response text.
Proof.
  rewrite (clean_response_absent (clean_response text)) by apply clean_response_no_fence.
  rewrite clean_response_eq. apply strip_strip.
Qed.

(** White space around a text does not change what is left of it. *)
Lemma clean_response_core text :
  strip (remove_fence (remove_json text)) = clean_response text.
Proof.
  rewrite clean_response_eq.
  destruct (strip_split text) as (w1 & w2 & Hw1 & Hw2 & Hs).
  remember (strip text) as core eqn:Hcore. rewrite Hs. clear Hs Hcore.
  assert (∀ s, remove_json (w1 +:+ s +:+ w2) = w1 +:+ remove_json s +:+ w2) as ->.
  { intros s. unfold remove_json, fence_json.
    rewrite replace_from_blank_l by (done || apply isspace_avoids_fence_json).
    by rewrite replace_from_blank_r by (done || apply isspace_avoids_fence_json). }
  assert (∀ s, remove_fence (w1 +:+ s +:+ w2) = w1 +:+ remove_fence s +:+ w2) as ->.
  { intros s. unfold remove_fence, fence.
    rewrite replace_from_blank_l by (done || apply isspace_avoids_fence).
    by rewrite replace_from_blank_r by (done || apply isspace_avoids_fence). }
  rewrite strip_blank_app by done. by rewrite strip_app_blank.
Qed.

Lemma LF_app s : LF +:+ s = String newline s.
Proof. done. Qed.

Lemma remove_json_head s : remove_json (fence_json +:+ s) = remove_json s.
Proof. apply (replace_from_head backtick "``json" EmptyString s). Qed.

Lemma remove_json_sep a b :
  remove_json (a +:+ String newline b)
  = remove_json a +:+ String newline (remove_json b).
Proof. by apply (replace_from_sep backtick "``json" EmptyString newline a b). Qed.

Lemma remove_json_newline s : remove_json (String newline s) = String newline (remove_json s).
Proof. apply (remove_json_sep EmptyString s). Qed.

Lemma remove_fence_head s : remove_fence (fence +:+ s) = remove_fence s.
Proof. apply (replace_from_head backtick "``" EmptyString s). Qed.

Lemma remove_fence_sep a b :
  remove_fence (a +:+ String newline b)
  = remove_fence a +:+ String newline (remove_fence b).
Proof. by apply (replace_from_sep backtick "``" EmptyString newline a b). Qed.

Lemma remove_fence_newline s : remove_fence (String newline s) = String newline (remove_fence s).
Proof. apply (remove_fence_sep EmptyString s). Qed.

Lemma strip_between s : strip (String newline (s +:+ LF)) = strip s.
Proof.
  rewrite <- LF_app, strip_blank_app by done. by rewrite strip_app_blank.
Qed.

(** The fences around a payload go, and with them the line breaks. *)
Lemma clean_response_fenced_json payload :
  clean_response (fenced_json payload) = clean_response payload.
Proof.
  rewrite <- (clean_response_core payload), <- clean_response_core.
  unfold fenced_json. rewrite !LF_app.
  rewrite remove_json_head, remove_json_newline, remove_json_sep.
  change (remove_json fence) with fence.
  rewrite remove_fence_newline, remove_fence_sep.
  change (remove_fence fence) with EmptyString.
  apply strip_between.
Qed.

Lemma clean_response_fenced_plain payload :
  clean_response (fenced_plain payload) = clean_response payload.
Proof.
  rewrite <- (clean_response_core payload), <- clean_response_core.
  unfold fenced_plain. rewrite !LF_app.
  rewrite (remove_json_sep fence), remove_json_sep.
  change (remove_json fence) with fence.
  rewrite remove_fence_head, remove_fence_newline, remove_fence_sep.
  change (remove_fence fence) with EmptyString.
  apply strip_between.
Qed.

End CleanFacts.

(** ** The selector *)

Section Selector.

Variable header : list string.

Lemma blank_at_middle (pre rest : list (list string)) row :
  blank_at header (pre ++ row :: rest) (length pre) = status_blank (row_dict header row).
Proof. unfold blank_at. by rewrite list_lookup_middle. Qed.

Lemma inquiry_at_middle (pre rest : list (list string)) row :
  inquiry_at header (pre ++ row :: rest) (length pre)
  = inquiry_of header (Z.of_nat (length pre)) row.
Proof. unfold inquiry_at. by rewrite list_lookup_middle. Qed.

(** The loop from index [length pre] on picks the blank indices of the
    rows it still has to see. *)
Lemma select_from_indices (rows pre : list (list string)) :
  select_from header (Z.of_nat (length pre)) rows
  = inquiry_at header (pre ++ rows)
      <$> filter (λ n, blank_at header (pre ++ rows) n = true)
            (seq (length pre) (length rows)).
Proof.
  revert pre. induction rows as [|row rest IH]; intros pre; [done|].
  cbn [select_from length seq].
  specialize (IH (pre ++ [row])).
  rewrite length_app in IH. cbn [length] in IH.
  replace (Z.of_nat (length pre + 1)) with (Z.of_nat (length pre) + 1) in IH by lia.
  replace (length pre + 1)%nat with (S (length pre)) in IH by lia.
  rewrite <- app_assoc in IH. cbn [app] in IH.
  rewrite filter_cons, blank_at_middle.
  destruct (status_blank (row_dict header row)) eqn:Hb.
  - rewrite decide_True by done. rewrite fmap_cons, inquiry_at_middle. by rewrite IH.
  - rewrite decide_False by done. by rewrite IH.
Qed.

Lemma select_from_zero (rows : list (list string)) :
  select_from header 0 rows = inquiry_at header rows <$> blank_indices header rows.
Proof. apply (select_from_indices rows []). Qed.

Lemma blank_indices_elem (rows : list (list string)) (n : nat) :
  n ∈ blank_indices header rows
  ↔ ∃ row, rows !! n = Some row ∧ status_blank (row_dict header row) = true.
Proof.
  unfold blank_indices, blank_at. rewrite list_elem_of_filter, elem_of_seq. split.
  - intros [Hb _]. destruct (rows !! n) as [row|]; [eauto | done].
  - intros (row & Hrow & Hb). rewrite Hrow. split; [done|].
    apply lookup_lt_Some in Hrow. lia.
Qed.

End Selector.

(** White space, by code point: the tabulation and line characters 9 to
    13, the separators 28 to 31, the space 32, and the next-line and
    no-break-space characters 133 and 160. *)
Lemma isspace_codes (c : ascii) :
  PyStr.isspace c = true
  ↔ (9 ≤ N_of_ascii c ≤ 13 ∨ 28 ≤ N_of_ascii c ≤ 32
     ∨ N_of_ascii c = 133 ∨ N_of_ascii c = 160)%N.
Proof.
  unfold PyStr.isspace. cbv zeta.
  rewrite !orb_true_iff, !andb_true_iff, !N.leb_le, !N.eqb_eq. lia.
Qed.

Lemma all_chars_In (P : ascii → bool) (s : string) :
  PyStr.all_chars P s = true ↔ ∀ c, In c (list_ascii_of_string s) → P c = true.
Proof.
  induction s as [|a s IH]; cbn [PyStr.all_chars list_ascii_of_string In].
  - split; [by intros _ c [] | done].
  - rewrite andb_true_iff, IH. split.
    + intros [Ha Hs] c [<-|Hc]; auto.
    + intros H. split; [apply H; by left | intros c Hc; apply H; by right].
Qed.

(** ** Rows as dictionaries *)

Section RowDict.

Context {V : Type}.

Implicit Types (header : list string) (row : list V) (m : gmap string V).

(** A name that no zipped position carries keeps what the dictionary
    had for it. *)
Lemma py_dict_zip_other header row m k :
  (∀ j, (j < length row)%nat → header !! j ≠ Some k) →
  foldl (λ m kv, <[kv.1 := kv.2]> m) m (zip header row) !! k = m !! k.
Proof.
  revert row m. induction header as [|h hs IH]; intros [|v vs] m Hk; try done.
  cbn [zip zip_with foldl fst snd]. rewrite IH.
  - apply lookup_insert_ne. intros ->. by apply (Hk 0%nat); [cbn; lia|].
  - intros j Hj. apply (Hk (S j)). cbn. lia.
Qed.

Lemma py_dict_zip_last header row m i k v :
  header !! i = Some k → row !! i = Some v →
  (∀ j, (i < j)%nat → (j < length row)%nat → header !! j ≠ Some k) →
  foldl (λ m kv, <[kv.1 := kv.2]> m) m (zip header row) !! k = Some v.
Proof.
  revert row m i. induction header as [|h hs IH]; intros [|x xs] m [|i] Hh Hr Hlast;
    try done; cbn [zip zip_with foldl fst snd].
  - injection Hh as ->. injection Hr as ->. rewrite py_dict_zip_other.
    + apply lookup_insert_eq.
    + intros j Hj. apply (Hlast (S j)); [lia | cbn; lia].
  - apply (IH xs _ i); [done | done |].
    intros j Hij Hj. apply (Hlast (S j)); [lia | cbn; lia].
Qed.

(** Under a name, a row has either no cell at all or a last one. *)
Lemma zip_key_cases header row k :
  (∀ j, (j < length row)%nat → header !! j ≠ Some k)
  ∨ ∃ i v, header !! i = Some k ∧ row !! i = Some v
           ∧ ∀ j, (i < j)%nat → (j < length row)%nat → header !! j ≠ Some k.
Proof.
  revert row. induction header as [|h hs IH]; intros row; [by left|].
  destruct row as [|v vs]; [left; intros j Hj; cbn in Hj; lia|].
  destruct (IH vs) as [Hnone | (i & v' & Hh & Hr & Hlast)].
  - destruct (decide (h = k)) as [->|Hne].
    + right. exists 0%nat, v. repeat split; try done.
      intros [|j] Hij Hj; [lia|]. apply Hnone. cbn in Hj. lia.
    + left. intros [|j] Hj; [by intros [= ->]|]. apply Hnone. cbn in Hj. lia.
  - right. exists (S i), v'. repeat split; try done.
    intros [|j] Hij Hj; [lia|]. apply Hlast; [lia | cbn in Hj; lia].
Qed.

End RowDict.

(** The status of a row is blank when the row has no cell under a
    [Status] column, or when its cell under the last [Status] column it
    reaches is made of white space only. *)
Lemma status_blank_cells (header row : list string) :
  status_blank (row_dict header row) = true
  ↔ (∀ j, (j < length row)%nat → header !! j ≠ Some "Status"%string)
    ∨ ∃ i s, header !! i = Some "Status"%string ∧ row !! i = Some s
             ∧ (∀ j, (i < j)%nat → (j < length row)%nat →
                     header !! j ≠ Some "Status"%string)
             ∧ ∀ c, In c (list_ascii_of_string s) →
                 (9 ≤ N_of_ascii c ≤ 13 ∨ 28 ≤ N_of_ascii c ≤ 32
                  ∨ N_of_ascii c = 133 ∨ N_of_ascii c = 160)%N.
Proof.
  unfold status_blank. rewrite PyStrFacts.is_empty_strip. split.
  - intros Hb. destruct (zip_key_cases header row "Status"%string)
      as [Hnone | (i & s & Hh & Hr & Hlast)]; [by left|].
    right. exists i, s. split; [done|]. split; [done|]. split; [done|].
    intros c Hc. apply isspace_codes. revert c Hc. apply all_chars_In.
    unfold row_dict, py_dict in Hb.
    by rewrite (py_dict_zip_last header row ∅ i "Status"%string s) in Hb.
  - intros [Hnone | (i & s & Hh & Hr & Hlast & Hw)].
    + unfold row_dict, py_dict. by rewrite py_dict_zip_other.
    + unfold row_dict, py_dict.
      rewrite (py_dict_zip_last header row ∅ i "Status"%string s) by done.
      apply all_chars_In. intros c Hc. by apply isspace_codes, Hw.
Qed.

(** C1.  On fewer than two rows the selector returns the empty list.
    Otherwise, with [header] the first row and [rows] the others, it
    returns the inquiries of the data rows whose status is blank, in row
    order: the indices it keeps are a subsequence of 0, 1, 2, ...; index
    [n] is kept exactly when row [n] has no cell under a column named
    [Status] (no such column, or the row ends before it), or when its
    cell under that column (the last one of that name the row reaches)
    holds white-space characters only, these being the code points 9 to
    13, 28 to 32, 133 and 160, the empty cell included; the inquiry of
    index [n] carries [row_index] n + 2; under any other column name it
    carries the row's cell of that column (the last one of that name the
    row reaches), and it has no entry for a name under which the row has
    no cell. *)
Theorem selector_keeps_blank_rows (values : list (list string)) :
  ((length values < 2)%nat → select_inquiries values = [])
  ∧ ∀ header rows, values = header :: rows →
      select_inquiries values = inquiry_at header rows <$> blank_indices header rows
      ∧ blank_indices header rows `sublist_of` seq 0 (length rows)
      ∧ (∀ n, n ∈ blank_indices header rows
              ↔ ∃ row, rows !! n = Some row
                  ∧ ((∀ j, (j < length row)%nat → header !! j ≠ Some "Status"%string)
                     ∨ ∃ i s, header !! i = Some "Status"%string ∧ row !! i = Some s
                              ∧ (∀ j, (i < j)%nat → (j < length row)%nat →
                                      header !! j ≠ Some "Status"%string)
                              ∧ ∀ c, In c (list_ascii_of_string s) →
                                  (9 ≤ N_of_ascii c ≤ 13 ∨ 28 ≤ N_of_ascii c ≤ 32
                                   ∨ N_of_ascii c = 133 ∨ N_of_ascii c = 160)%N))
      ∧ (∀ n, inquiry_at header rows n !! "row_index"%string
              = Some (VInt (Z.of_nat n + 2)))
      ∧ (∀ n row i k v, rows !! n = Some row → k ≠ "row_index"%string →
              header !! i = Some k → row !! i = Some v →
              (∀ j, (i < j)%nat → (j < length row)%nat → header !! j ≠ Some k) →
              inquiry_at header rows n !! k = Some (VStr v))
      ∧ (∀ n row k, rows !! n = Some row → k ≠ "row_index"%string →
              (∀ j, (j < length row)%nat → header !! j ≠ Some k) →
              inquiry_at header rows n !! k = None).
Proof.
  split.
  - intros Hlen. destruct values as [|h [|r rs]]; simpl in *; [done | done | lia].
  - intros header rows ->.
    split; [|split; [|split; [|split; [|split]]]].
    + unfold select_inquiries. destruct rows as [|r rs]; [done|].
      cbn [length]. destruct (Z.ltb_spec (Z.of_nat (S (S (length rs)))) 2); [lia|].
      apply select_from_zero.
    + apply sublist_filter.
    + intros n. rewrite blank_indices_elem. split.
      * intros (row & Hrow & Hb). exists row. split; [done|].
        by apply status_blank_cells.
      * intros (row & Hrow & Hb). exists row. split; [done|].
        by apply status_blank_cells.
    + intros n. unfold inquiry_at, inquiry_of. apply lookup_insert_eq.
    + intros n row i k v Hrow Hk Hh Hr Hlast. unfold inquiry_at, inquiry_of.
      rewrite Hrow. cbn [default from_option id].
      rewrite lookup_insert_ne by done. rewrite lookup_fmap.
      unfold row_dict, py_dict.
      by rewrite (py_dict_zip_last header row ∅ i k v).
    + intros n row k Hrow Hk Hnone. unfold inquiry_at, inquiry_of.
      rewrite Hrow. cbn [default from_option id].
      rewrite lookup_insert_ne by done. rewrite lookup_fmap.
      unfold row_dict, py_dict. by rewrite py_dict_zip_other.
Qed.

(** ** The pipeline *)

Section PipelineFacts.

Context {W : Type} (svc : Services W).

Implicit Types (st : state W) (inquiry ai_result : gmap string pyval).

Lemma extend_extend st a b : extend (extend st a) b = extend st (a ++ b).
Proof. unfold extend. simpl. by rewrite app_assoc. Qed.

Lemma extend_nil st : extend st [] = st.
Proof. destruct st. unfold extend. simpl. by rewrite app_nil_r. Qed.

Lemma emit_run e st : emit e st = (Done tt, extend st [e]).
Proof. done. Qed.

Lemma print_run l st : print l st = (Done tt, extend st [Print l]).
Proof. done. Qed.

Lemma analyze_with_ai_run description st :
  analyze_with_ai svc description st
  = let '(reply, w) := generate_content svc description (hidden st) in
    (Done (fst (classified svc reply)),
     extend (with_hidden w st) [AICall description; Print (snd (classified svc reply))]).
Proof.
  unfold analyze_with_ai, try_except, bind, call, lift, emit, print, emit, ret, raise,
    classified, extend, with_hidden.
  simpl. destruct (generate_content svc description (hidden st)) as [[text|e] w]; simpl.
  - destruct (json_loads svc (clean_response text)) as [[]|e]; simpl;
      by rewrite <- ?app_assoc.
  - by rewrite <- ?app_assoc.
Qed.


Lemma store_in_database_run inquiry ai_result st :
  store_in_database svc inquiry ai_result st
  = let params := insert_params inquiry ai_result in
    let '(o, w) := db_execute svc params (hidden st) in
    match o with
    | Done _ =>
        (Done tt,
         Build_state w (sheet st) (table st ++ [params])
           (trace st ++ [DBInsert params; Print (LStored (py_get inquiry "Company Name"))]))
    | Raised e => (Raised e, extend (with_hidden w st) [DBInsert params])
    end.
Proof.
  unfold store_in_database, bind, call, emit, commit_row, print, emit, extend, with_hidden.
  simpl. destruct (db_execute svc _ (hidden st)) as [[[]|e] w]; simpl; [|done].
  by rewrite <- app_assoc.
Qed.

Lemma send_slack_alert_run inquiry ai_result st :
  send_slack_alert svc inquiry ai_result st
  = match py_lt_int (py_get_or ai_result "alignment_score" (VInt 0)) 4 with
    | Raised e => (Raised e, st)
    | Done true => (Done tt, extend st [Print LSlackSkipped])
    | Done false =>
        let message := alert_message inquiry ai_result in
        let '(o, w) := requests_post svc message (hidden st) in
        match o with
        | Raised e => (Raised e, extend (with_hidden w st) [SlackPost message])
        | Done response =>
            (Done tt,
             extend (with_hidden w st)
               [SlackPost message;
                Print (if fst response =? 200 then LSlackSent
                       else LSlackFailed (fst response) (snd response))])
        end
    end.
Proof.
  unfold send_slack_alert, bind, lift, call, emit, print, emit, extend, with_hidden.
  destruct (py_lt_int _ 4) as [[]|e]; simpl; [done| |done].
  destruct (requests_post svc _ (hidden st)) as [[response|e] w]; simpl; [|done].
  destruct (fst response =? 200); simpl; by rewrite <- app_assoc.
Qed.

Lemma update_sheet_run row_index ai_result st :
  update_sheet svc row_index ai_result st
  = let values := update_cells ai_result in
    let '(o, w) := sheets_update svc row_index values (hidden st) in
    match o with
    | Done _ =>
        (Done tt,
         Build_state w (write_back row_index values (sheet st)) (table st)
           (trace st ++ [SheetUpdate row_index values; Print (LSheetUpdated row_index)]))
    | Raised e => (Raised e, extend (with_hidden w st) [SheetUpdate row_index values])
    end.
Proof.
  unfold update_sheet, bind, call, emit, commit_cells, print, emit, extend, with_hidden.
  simpl. destruct (sheets_update svc _ _ (hidden st)) as [[[]|e] w]; simpl; [|done].
  by rewrite <- app_assoc.
Qed.

(** The three ways in which an inquiry is passed over. *)
Lemma process_inquiry_no_description inquiry st :
  truthy (py_get inquiry "Opportunity Description") = false →
  process_inquiry svc inquiry st
  = (Done tt,
     extend st [Print (LProcessing (py_get inquiry "Company Name"));
                Print LSkipNoDescription]).
Proof.
  intros Hd. unfold process_inquiry, bind. rewrite print_run, Hd. simpl.
  by rewrite print_run, extend_extend.
Qed.

Lemma process_inquiry_skipped inquiry st :
  let description := py_get inquiry "Opportunity Description" in
  let st1 := extend st [Print (LProcessing (py_get inquiry "Company Name"))] in
  let '(reply, w) := generate_content svc description (hidden st) in
  truthy description = true →
  match fst (classified svc reply) with
  | None => True
  | Some d => d = ∅
  end →
  process_inquiry svc inquiry st
  = (Done tt,
     extend (with_hidden w st)
       [Print (LProcessing (py_get inquiry "Company Name"));
        AICall description;
        Print (snd (classified svc reply));
        Print LSkipAIFailure]).
Proof.
  intros description st1.
  destruct (generate_content svc description (hidden st)) as [reply w] eqn:Hg.
  intros Hd Hr. unfold process_inquiry, bind. rewrite print_run.
  fold description. rewrite Hd. simpl. rewrite analyze_with_ai_run. simpl.
  fold description. rewrite Hg.
  destruct (fst (classified svc reply)) as [d|].
  - subst d. rewrite bool_decide_eq_true_2 by done. cbn [negb].
    rewrite print_run. unfold extend, with_hidden. simpl.
    by rewrite <- !app_assoc.
  - rewrite print_run. unfold extend, with_hidden. simpl.
    by rewrite <- !app_assoc.
Qed.

Lemma process_all_cons inquiry rest st :
  process_all svc (inquiry :: rest) st
  = match process_inquiry svc inquiry st with
    | (Done _, st') => process_all svc rest st'
    | (Raised e, st') => (Raised e, st')
    end.
Proof. done. Qed.

Lemma count_app p a b : count p (a ++ b) = (count p a + count p b)%nat.
Proof. unfold count. by rewrite List.filter_app, length_app. Qed.


Lemma analyze_with_ai_effect description st :
  ∃ r w l,
    analyze_with_ai svc description st
    = (Done r, extend (with_hidden w st) [AICall description; Print l])
    ∧ (generate_content svc description (hidden st)).2 = w
    ∧ r = (classified svc (generate_content svc description (hidden st)).1).1.
Proof.
  rewrite analyze_with_ai_run.
  destruct (generate_content svc description (hidden st)) as [reply w].
  by eexists _, w, _.
Qed.

Lemma process_inquiry_after_analyze inquiry st r st' :
  truthy (py_get inquiry "Opportunity Description") = true →
  analyze_with_ai svc (py_get inquiry "Opportunity Description")
    (extend st [Print (LProcessing (py_get inquiry "Company Name"))]) = (Done r, st') →
  r = None ∨ r = Some ∅ →
  process_inquiry svc inquiry st = (Done tt, extend st' [Print LSkipAIFailure]).
Proof.
  intros Hd Ha Hr. unfold process_inquiry, bind. rewrite print_run, Hd. cbn [negb].
  rewrite Ha. by destruct Hr as [-> | ->].
Qed.

End PipelineFacts.

(** C2.  The classifier always returns: whatever the model call and the
    decoder do, [analyze_with_ai] ends with a result and touches neither
    the sheet nor the table; when the call raises, or the cleaned text
    does not decode, the result is [None].  And when the result is
    [None] the orchestrator prints the skip line and goes on with the
    next inquiry: nothing is stored, posted or written back for this
    one. *)
Theorem classifier_failure_is_skipped {W} (svc : Services W) :
  (∀ description (st : state W), ∃ r st',
      analyze_with_ai svc description st = (Done r, st')
      ∧ sheet st' = sheet st ∧ table st' = table st
      ∧ (∀ e, (generate_content svc description (hidden st)).1 = Raised e → r = None)
      ∧ (∀ text e, (generate_content svc description (hidden st)).1 = Done text →
           json_loads svc (clean_response text) = Raised e → r = None))
  ∧ (∀ inquiry rest (st st' : state W),
      truthy (py_get inquiry "Opportunity Description") = true →
      analyze_with_ai svc (py_get inquiry "Opportunity Description")
        (extend st [Print (LProcessing (py_get inquiry "Company Name"))])
      = (Done None, st') →
      process_inquiry svc inquiry st = (Done tt, extend st' [Print LSkipAIFailure])
      ∧ sheet st' = sheet st ∧ table st' = table st
      ∧ (∃ added, trace (extend st' [Print LSkipAIFailure]) = trace st ++ added
           ∧ count is_insert added = 0%nat
           ∧ count is_post added = 0%nat
           ∧ count is_update added = 0%nat)
      ∧ process_all svc (inquiry :: rest) st
        = process_all svc rest (extend st' [Print LSkipAIFailure])).
Proof.
  split.
  - intros description st.
    destruct (analyze_with_ai_effect svc description st) as (r & w & l & Hrun & _ & Hr).
    exists r, (extend (with_hidden w st) [AICall description; Print l]).
    repeat split; [done|..].
    + intros e He. rewrite He in Hr. by subst r.
    + intros text e Ht He. rewrite Ht in Hr. simpl in Hr. rewrite He in Hr. by subst r.
  - intros inquiry rest st st' Hd Ha.
    pose proof (process_inquiry_after_analyze svc inquiry st None st' Hd Ha (or_introl eq_refl))
      as Hp.
    destruct (analyze_with_ai_effect svc (py_get inquiry "Opportunity Description")
                (extend st [Print (LProcessing (py_get inquiry "Company Name"))]))
      as (r & w & l & Hrun & _ & _).
    rewrite Ha in Hrun. injection Hrun as _ ->.
    repeat split; [done|..].
    + eexists. split; [simpl; rewrite <- !app_assoc; reflexivity|]. done.
    + by rewrite process_all_cons, Hp.
Qed.

(** C7.  An inquiry whose description is absent or empty is passed over
    before anything else happens: the two lines are printed, no service
    is called (the hidden state is the same), nothing is stored, posted
    or written back, and the loop goes on with the next inquiry. *)
Theorem missing_description_is_skipped {W} (svc : Services W)
    inquiry rest (st : state W) :
  inquiry !! "Opportunity Description" = None
  ∨ inquiry !! "Opportunity Description" = Some (VStr "") →
  let st' := extend st [Print (LProcessing (py_get inquiry "Company Name"));
                        Print LSkipNoDescription] in
  process_inquiry svc inquiry st = (Done tt, st')
  ∧ hidden st' = hidden st ∧ sheet st' = sheet st ∧ table st' = table st
  ∧ count is_ai_call (trace st') = count is_ai_call (trace st)
  ∧ count is_insert (trace st') = count is_insert (trace st)
  ∧ count is_post (trace st') = count is_post (trace st)
  ∧ count is_update (trace st') = count is_update (trace st)
  ∧ process_all svc (inquiry :: rest) st = process_all svc rest st'.
Proof.
  intros Hd st'.
  assert (truthy (py_get inquiry "Opportunity Description") = false) as Hf.
  { unfold py_get. by destruct Hd as [-> | ->]. }
  pose proof (process_inquiry_no_description svc inquiry st Hf) as Hp.
  repeat split; try done.
  1-4: subst st'; cbn [trace extend]; rewrite count_app; cbn; lia.
  by rewrite process_all_cons, Hp.
Qed.

(** C10.  An answer that decodes to a falsy value is treated as a
    failure.  The value may be the empty object, for which the success
    line is printed with score [None], or a null, false, zero, empty
    string or list, on which the classifier's own [.get] raises.  In
    each case the orchestrator prints the skip line, stores, posts and
    writes back nothing, and goes on with the next inquiry. *)
Theorem falsy_answer_is_skipped {W} (svc : Services W)
    inquiry rest (st : state W) text w v :
  let description := py_get inquiry "Opportunity Description" in
  truthy description = true →
  generate_content svc description (hidden st) = (Done text, w) →
  json_loads svc (clean_response text) = Done v →
  truthy v = false →
  ∃ l,
    let st' := extend (with_hidden w st)
                 [Print (LProcessing (py_get inquiry "Company Name"));
                  AICall description; Print l; Print LSkipAIFailure] in
    process_inquiry svc inquiry st = (Done tt, st')
    ∧ sheet st' = sheet st ∧ table st' = table st
    ∧ (v = VDict ∅ → l = LAISuccess VNone)
    ∧ process_all svc (inquiry :: rest) st = process_all svc rest st'.
Proof.
  intros description Hd Hg Hv Hf.
  pose proof (process_inquiry_skipped svc inquiry st) as Hp.
  cbv zeta in Hp. fold description in Hp. rewrite Hg in Hp.
  exists (classified svc (Done text)).2.
  assert (process_inquiry svc inquiry st
          = (Done tt,
             extend (with_hidden w st)
               [Print (LProcessing (py_get inquiry "Company Name"));
                AICall description; Print (classified svc (Done text)).2;
                Print LSkipAIFailure])) as Hrun.
  { apply Hp; [done|]. unfold classified. rewrite Hv.
    destruct v; try done. simpl in *.
    apply negb_false_iff in Hf. by apply bool_decide_eq_true in Hf. }
  cbn zeta. repeat split; try done.
  - intros ->. unfold classified. by rewrite Hv.
  - by rewrite process_all_cons, Hrun.
Qed.

(** C3.  The notifier posts once when the score is an integer of at
    least 4: the post is the first thing that happens, and when the
    webhook answers, with any status code, the notifier returns, having
    printed the success line for 200 and the failure line otherwise.
    When the score is absent or an integer below 4 it prints the skip
    line and calls no service. *)
Theorem slack_alert_threshold {W} (svc : Services W) inquiry ai_result (st : state W) :
  (∀ n, ai_result !! "alignment_score" = Some (VInt n) → 4 ≤ n →
      ∃ o w rest,
        send_slack_alert svc inquiry ai_result st
        = (o, extend (with_hidden w st) (SlackPost (alert_message inquiry ai_result) :: rest))
        ∧ count is_post (SlackPost (alert_message inquiry ai_result) :: rest) = 1%nat
        ∧ (∀ status text,
             (requests_post svc (alert_message inquiry ai_result) (hidden st)).1
             = Done (status, text) →
             o = Done tt
             ∧ rest = [Print (if status =? 200 then LSlackSent
                              else LSlackFailed status text)]))
  ∧ (ai_result !! "alignment_score" = None
     ∨ (∃ n, ai_result !! "alignment_score" = Some (VInt n) ∧ n < 4) →
      send_slack_alert svc inquiry ai_result st
      = (Done tt, extend st [Print LSlackSkipped])
      ∧ hidden (extend st [Print LSlackSkipped]) = hidden st
      ∧ count is_post (trace (extend st [Print LSlackSkipped]))
        = count is_post (trace st)).
Proof.
  split.
  - intros n Hs Hn. rewrite send_slack_alert_run.
    assert (py_lt_int (py_get_or ai_result "alignment_score" (VInt 0)) 4 = Done false) as ->.
    { unfold py_get_or. rewrite Hs. simpl. by destruct (Z.ltb_spec n 4); [lia|]. }
    cbv zeta.
    destruct (requests_post svc _ (hidden st)) as [[response|e] w].
    + eexists _, w, _. split; [reflexivity|]. split; [done|].
      intros status text [= ->]. done.
    + eexists _, w, []. split; [reflexivity|]. split; [done|]. done.
  - intros Hs. rewrite send_slack_alert_run.
    assert (py_lt_int (py_get_or ai_result "alignment_score" (VInt 0)) 4 = Done true) as ->.
    { unfold py_get_or. destruct Hs as [-> | (n & -> & Hn)]; [done|]. simpl.
      by destruct (Z.ltb_spec n 4) as [_|]; [|lia]. }
    repeat split. cbn [trace extend]. rewrite count_app. cbn. lia.
Qed.

(** ** The store *)

(** C4, as amended.  The INSERT is given eight parameters, one for each
    column it names: five fields of the inquiry, the literal
    [Processed], and two derived fields, the summary and the score.
    The suggested next step is not among them: changing it changes
    nothing of what is stored, and neither does the inquiry's own
    [Status] or [row_index].  One insert is issued, and when the driver
    accepts it the tuple is the new last row of the table. *)
Theorem store_receives_summary_and_score {W} (svc : Services W)
    inquiry ai_result (st : state W) :
  zip insert_columns (insert_params inquiry ai_result)
  = [("timestamp", py_get inquiry "Timestamp");
     ("company_name", py_get inquiry "Company Name");
     ("contact_email", py_get inquiry "Contact Email");
     ("company_website", py_get inquiry "Company Website");
     ("description", py_get inquiry "Opportunity Description");
     ("status", VStr "Processed");
     ("ai_summary", py_get ai_result "summary");
     ("alignment_score", py_get ai_result "alignment_score")]
  ∧ length (insert_params inquiry ai_result) = length insert_columns
  ∧ (∀ v, insert_params inquiry (<["suggested_next_step" := v]> ai_result)
          = insert_params inquiry ai_result)
  ∧ (∀ v, insert_params (<["Status" := v]> inquiry) ai_result
          = insert_params inquiry ai_result)
  ∧ (∀ v, insert_params (<["row_index" := v]> inquiry) ai_result
          = insert_params inquiry ai_result)
  ∧ (∃ o st', store_in_database svc inquiry ai_result st = (o, st')
       ∧ ∃ rest, trace st' = trace st ++ DBInsert (insert_params inquiry ai_result) :: rest
                 ∧ count is_insert rest = 0%nat)
  ∧ (∀ w, db_execute svc (insert_params inquiry ai_result) (hidden st) = (Done tt, w) →
       ∃ st', store_in_database svc inquiry ai_result st = (Done tt, st')
         ∧ table st' = table st ++ [insert_params inquiry ai_result]
         ∧ sheet st' = sheet st).
Proof.
  repeat split.
  - intros v. unfold insert_params, py_get. by rewrite !lookup_insert_ne.
  - intros v. unfold insert_params, py_get. by rewrite !lookup_insert_ne.
  - intros v. unfold insert_params, py_get. by rewrite !lookup_insert_ne.
  - rewrite store_in_database_run. cbv zeta.
    destruct (db_execute svc _ (hidden st)) as [[[]|e] w].
    + eexists _, _. split; [reflexivity|]. by eexists.
    + eexists _, _. split; [reflexivity|]. by eexists.
  - intros w Hw. rewrite store_in_database_run. cbv zeta. rewrite Hw. by eexists.
Qed.

(** ** The write-back *)

Lemma write_cells_lookup (r c : Z) (cells : list pyval) (g : gmap (Z * Z) pyval) (r' c' : Z) :
  write_cells r c cells g !! (r', c')
  = match (if decide (r' = r ∧ c ≤ c') then cells !! Z.to_nat (c' - c) else None) with
    | Some VNone | None => g !! (r', c')
    | Some v => Some v
    end.
Proof.
  revert c g. induction cells as [|v rest IH]; intros c g; cbn [write_cells].
  - by case_decide.
  - rewrite IH.
    destruct (decide (r' = r ∧ c + 1 ≤ c')) as [H1|H1],
             (decide (r' = r ∧ c ≤ c')) as [H2|H2]; try lia.
    + replace (Z.to_nat (c' - c)) with (S (Z.to_nat (c' - (c + 1)))) by lia.
      change ((v :: rest) !! S (Z.to_nat (c' - (c + 1))))
        with (rest !! Z.to_nat (c' - (c + 1))).
      assert ((r, c) ≠ (r', c')) as Hne by (intros [=]; lia).
      destruct (rest !! Z.to_nat (c' - (c + 1))) as [[]|]; try done;
        destruct v; try done; by rewrite lookup_insert_ne.
    + destruct H2 as [-> Hc]. assert (c' = c) as -> by lia.
      rewrite Z.sub_diag. change ((v :: rest) !! Z.to_nat 0) with (Some v).
      destruct v; try done; by rewrite lookup_insert_eq.
    + assert ((r, c) ≠ (r', c')) as Hne by (intros [=]; lia).
      destruct v; try done; by rewrite lookup_insert_ne.
Qed.

(** C6, as amended.  For an integer row position, the write-back asks
    for one update of the range that starts at column F of that row, with
    the row of values [Processed], summary, score, where a field that the
    result does not have, or has as a null, is sent as a null.  When the
    sheet service accepts the update, column F of the row holds
    [Processed]; column G holds the summary and column H the score when
    the result has them; a column whose field is missing or null keeps
    the value it had; every other cell of the sheet is as before, and the
    table is untouched. *)
Theorem write_back_touches_three_cells {W} (svc : Services W)
    (r : Z) ai_result (st : state W) w :
  sheets_update svc (VInt r) (update_cells ai_result) (hidden st) = (Done tt, w) →
  ∃ st',
    update_sheet svc (VInt r) ai_result st = (Done tt, st')
    ∧ trace st'
      = trace st ++ [SheetUpdate (VInt r)
                       [VStr "Processed"; py_get ai_result "summary";
                        py_get ai_result "alignment_score"];
                     Print (LSheetUpdated (VInt r))]
    ∧ table st' = table st
    ∧ sheet st' !! (r, col_F) = Some (VStr "Processed")
    ∧ (∀ v, ai_result !! "summary" = Some v → v ≠ VNone →
            sheet st' !! (r, col_F + 1) = Some v)
    ∧ (∀ v, ai_result !! "alignment_score" = Some v → v ≠ VNone →
            sheet st' !! (r, col_F + 2) = Some v)
    ∧ (py_get ai_result "summary" = VNone →
            sheet st' !! (r, col_F + 1) = sheet st !! (r, col_F + 1))
    ∧ (py_get ai_result "alignment_score" = VNone →
            sheet st' !! (r, col_F + 2) = sheet st !! (r, col_F + 2))
    ∧ (∀ r' c, ¬ (r' = r ∧ col_F ≤ c ≤ col_F + 2) →
            sheet st' !! (r', c) = sheet st !! (r', c)).
Proof.
  intros Hw. rewrite update_sheet_run. cbv zeta. rewrite Hw.
  eexists. split; [reflexivity|]. cbn [trace table sheet write_back].
  split; [done|]. split; [done|].
  split; [|split; [|split; [|split; [|split]]]].
  - rewrite write_cells_lookup. rewrite decide_True by lia.
    by rewrite Z.sub_diag.
  - intros v Hv Hn. rewrite write_cells_lookup. unfold update_cells, py_get.
    rewrite Hv. rewrite decide_True by (unfold col_F; lia).
    replace (Z.to_nat (col_F + 1 - col_F)) with 1%nat by lia.
    cbn. by destruct v.
  - intros v Hv Hn. rewrite write_cells_lookup. unfold update_cells, py_get.
    rewrite Hv. rewrite decide_True by (unfold col_F; lia).
    replace (Z.to_nat (col_F + 2 - col_F)) with 2%nat by lia.
    cbn. by destruct v.
  - intros Hnone. rewrite write_cells_lookup. unfold update_cells.
    rewrite decide_True by (unfold col_F; lia).
    replace (Z.to_nat (col_F + 1 - col_F)) with 1%nat by lia.
    cbn. by rewrite Hnone.
  - intros Hnone. rewrite write_cells_lookup. unfold update_cells.
    rewrite decide_True by (unfold col_F; lia).
    replace (Z.to_nat (col_F + 2 - col_F)) with 2%nat by lia.
    cbn. by rewrite Hnone.
  - intros r' c Hout. rewrite write_cells_lookup. case_decide as Hin; [|done].
    destruct Hin as [-> Hc].
    assert (col_F + 2 < c) as Hgt by lia.
    rewrite (proj2 (lookup_ge_None _ _)); [done|]. unfold update_cells. simpl. lia.
Qed.

(** ** The run *)

Section RunFacts.

Context {W : Type} (svc : Services W).

Lemma fetch_new_inquiries_run (st : state W) :
  fetch_new_inquiries svc st
  = let '(o, w) := sheets_get svc (hidden st) in
    match o with
    | Raised e => (Raised e, extend (with_hidden w st) [SheetRead])
    | Done result =>
        let new := select_inquiries (default [] result) in
        (Done new,
         extend (with_hidden w st)
           [SheetRead;
            Print (if Z.of_nat (length (default [] result)) <? 2 then LNoData
                   else LFound (length new))])
    end.
Proof.
  unfold fetch_new_inquiries, bind, call, emit, print, emit, ret, extend, with_hidden.
  simpl. destruct (sheets_get svc (hidden st)) as [[result|e] w]; simpl; [|done].
  destruct (Z.ltb_spec (Z.of_nat (length (default [] result))) 2) as [Hlt|Hge]; simpl.
  - rewrite <- app_assoc. simpl.
    replace (select_inquiries (default [] result)) with (@nil (gmap string pyval)); [done|].
    destruct (default [] result) as [|h [|r rs]]; simpl in *; try done. lia.
  - by rewrite <- app_assoc.
Qed.

Lemma process_all_done inquiries (st : state W) :
  (∀ inquiry st', inquiry ∈ inquiries → (process_inquiry svc inquiry st').1 = Done tt) →
  (process_all svc inquiries st).1 = Done tt.
Proof.
  revert st. induction inquiries as [|inquiry rest IH]; intros st Hall; [done|].
  rewrite process_all_cons.
  pose proof (Hall inquiry st (list_elem_of_here _ _)) as H.
  destruct (process_inquiry svc inquiry st) as [[[]|e] st']; simpl in H; [|done].
  apply IH. intros i st'' Hi. apply Hall. by apply list_elem_of_further.
Qed.

(** An inquiry's processing raises only after its insert was issued. *)
Lemma process_inquiry_raises inquiry (st : state W) e :
  (process_inquiry svc inquiry st).1 = Raised e →
  ∃ added, trace (process_inquiry svc inquiry st).2 = trace st ++ added
           ∧ count is_insert added = 1%nat.
Proof.
  assert (∀ (st0 : state W) evs (o : outcome unit) (w : W) sh tb more,
            trace st0 = trace st ++ evs →
            (count is_insert evs + count is_insert more = 1)%nat →
            ∃ added,
              trace (o, Build_state w sh tb (trace st0 ++ more)).2 = trace st ++ added
              ∧ count is_insert added = 1%nat) as Hput.
  { intros st0 evs o w0 sh tb more Ht He. exists (evs ++ more).
    cbn [snd trace]. by rewrite Ht, <- app_assoc, count_app. }
  unfold process_inquiry, bind, lift. rewrite print_run.
  destruct (truthy (py_get inquiry "Opportunity Description")); cbn [negb]; [|done].
  rewrite analyze_with_ai_run.
  destruct (generate_content svc _ _) as [reply w].
  destruct (classified svc reply).1 as [d|]; [|done].
  destruct (negb (truthy (VDict d))); [done|].
  rewrite store_in_database_run. cbv zeta.
  set (st1 := extend (with_hidden w _) _).
  assert (∃ pre, trace st1 = trace st ++ pre ∧ count is_insert pre = 0%nat) as (pre & Hpre & Hc).
  { eexists. subst st1. cbn [trace extend with_hidden]. rewrite <- app_assoc.
    split; [reflexivity|done]. }
  destruct (db_execute svc _ (hidden st1)) as [[[]|e1] w1].
  - rewrite send_slack_alert_run. cbn [hidden].
    set (ins := DBInsert _).
    set (st2 := Build_state w1 _ _ _).
    assert (trace st2 = trace st ++ (pre ++ [ins; Print (LStored (py_get inquiry "Company Name"))]))
      as Ht2 by (subst st2; cbn [trace]; by rewrite Hpre, <- app_assoc).
    assert (count is_insert (pre ++ [ins; Print (LStored (py_get inquiry "Company Name"))]) = 1%nat)
      as Hc2 by (rewrite count_app, Hc; done).
    destruct (py_lt_int _ 4) as [[]|e2].
    + destruct (py_getitem inquiry "row_index") as [row|e3].
      * rewrite update_sheet_run. cbv zeta.
        destruct (sheets_update svc _ _ _) as [[[]|e4] w4]; [done|].
        intros _. unfold extend, with_hidden. cbn [trace hidden sheet table].
        rewrite <- app_assoc. apply (Hput st2 _ _ _ _ _ _ Ht2); by rewrite Hc2.
      * intros _. unfold extend. apply (Hput st2 _ _ _ _ _ _ Ht2); by rewrite Hc2.
    + cbv zeta. destruct (requests_post svc _ _) as [[response|e5] w5].
      * destruct (py_getitem inquiry "row_index") as [row|e3].
        -- rewrite update_sheet_run. cbv zeta.
           destruct (sheets_update svc _ _ _) as [[[]|e4] w4]; [done|].
           intros _. unfold extend, with_hidden. cbn [trace hidden sheet table].
           rewrite <- !app_assoc. apply (Hput st2 _ _ _ _ _ _ Ht2); by rewrite Hc2.
        -- intros _. unfold extend, with_hidden. cbn [trace hidden sheet table].
           apply (Hput st2 _ _ _ _ _ _ Ht2); by rewrite Hc2.
      * intros _. unfold extend, with_hidden. cbn [trace hidden sheet table].
        apply (Hput st2 _ _ _ _ _ _ Ht2); by rewrite Hc2.
    + intros _. exists (pre ++ [ins; Print (LStored (py_get inquiry "Company Name"))]).
      by split.
  - intros _. unfold extend, with_hidden. cbn [trace hidden sheet table].
    apply (Hput st1 _ _ _ _ _ _ Hpre); by rewrite Hc.
Qed.

Lemma main_run (st : state W) :
  main svc st
  = let '(o1, w1) := sheets_auth svc (hidden st) in
    let st1 := extend (with_hidden w1 st) [Print LStart; SheetAuth] in
    match o1 with
    | Raised e => (Raised e, st1)
    | Done _ =>
        match fetch_new_inquiries svc st1 with
        | (Raised e, st2) => (Raised e, st2)
        | (Done [], st2) => (Done tt, extend st2 [Print LNoNew; Print LFinished])
        | (Done (i :: rest), st2) =>
            match process_all svc (i :: rest) st2 with
            | (Done _, st3) => (Done tt, extend st3 [Print LFinished])
            | (Raised e, st3) => (Raised e, st3)
            end
        end
    end.
Proof.
  unfold main, bind at 1 2 3. rewrite print_run, emit_run, extend_extend.
  cbn [app]. unfold call at 1. cbn [hidden extend].
  destruct (sheets_auth svc (hidden st)) as [[[]|e] w1]; [|done].
  cbv zeta. fold (with_hidden w1 (extend st [Print LStart; SheetAuth])).
  replace (with_hidden w1 (extend st [Print LStart; SheetAuth]))
    with (extend (with_hidden w1 st) [Print LStart; SheetAuth]) by done.
  unfold bind.
  destruct (fetch_new_inquiries svc _) as [[[|i rest]|e] st2]; [| |done].
  - by rewrite !print_run, extend_extend.
  - destruct (process_all svc (i :: rest) st2) as [[[]|e] st3]; [|done].
    by rewrite print_run.
Qed.

End RunFacts.

Lemma process_all_app {W} (svc : Services W) l1 l2 (st : state W) :
  process_all svc (l1 ++ l2) st
  = match process_all svc l1 st with
    | (Done _, st1) => process_all svc l2 st1
    | (Raised e, st1) => (Raised e, st1)
    end.
Proof.
  revert st. induction l1 as [|i l1 IH]; intros st; [done|].
  cbn [app]. rewrite !process_all_cons.
  destruct (process_inquiry svc i st) as [[[]|e] st1]; [apply IH | done].
Qed.

Section RunPlaces.

Context {W : Type} (svc : Services W).

(** A loop that raises does so at one inquiry, after the ones before it
    went through. *)
Lemma process_all_raises_split l (st : state W) e :
  (process_all svc l st).1 = Raised e →
  ∃ done inquiry rest st_k,
    l = done ++ inquiry :: rest
    ∧ process_all svc done st = (Done tt, st_k)
    ∧ process_inquiry svc inquiry st_k = (Raised e, (process_all svc l st).2).
Proof.
  revert st. induction l as [|i l IH]; intros st; [done|].
  rewrite process_all_cons.
  destruct (process_inquiry svc i st) as [[[]|e'] st1] eqn:Hi.
  - intros He. destruct (IH st1 He) as (done & inquiry & rest & st_k & -> & Hd & Hr).
    exists (i :: done), inquiry, rest, st_k. split; [done|]. split; [|done].
    by rewrite process_all_cons, Hi.
  - intros [= ->]. by exists [], i, l, st.
Qed.

Lemma process_all_raises_at done inquiry rest (st st_k st' : state W) e :
  process_all svc done st = (Done tt, st_k) →
  process_inquiry svc inquiry st_k = (Raised e, st') →
  process_all svc (done ++ inquiry :: rest) st = (Raised e, st').
Proof.
  intros Hd Hr. rewrite process_all_app, Hd, process_all_cons. by rewrite Hr.
Qed.

End RunPlaces.

(** C8, as amended.  With the sheet authenticated and read, let [new] be
    the selected inquiries and [st2] the state right after the fetch.
    The run ends with exit status 0 when no inquiry is found, and when
    no inquiry's processing raises from the state in which the loop
    reaches it (in particular when none raises from any state).  When
    the processing of an inquiry raises, at whatever place of the list
    the inquiry stands ([new = done ++ inquiry :: rest], the inquiries of
    [done] having gone through), the run ends there with that exception,
    in the state the inquiry left, with exit status 1, and the inquiries
    of [rest] are not taken up.  Conversely a run that raises after the
    sheet was read does so at such an inquiry.  The run also ends with
    exit status 1 when the authentication or the read raises.  An
    inquiry's processing raises only after its insert was issued, that
    is in the store, the notifier or the write-back. *)
Theorem run_exit_status {W} (svc : Services W) (st : state W) :
  (∀ w1 result w2,
      sheets_auth svc (hidden st) = (Done tt, w1) →
      sheets_get svc w1 = (Done result, w2) →
      let new := select_inquiries (default [] result) in
      let st2 := extend (with_hidden w2 st)
                   [Print LStart; SheetAuth; SheetRead;
                    Print (if Z.of_nat (length (default [] result)) <? 2 then LNoData
                           else LFound (length new))] in
      (new = [] → exit_status (main svc st).1 = 0)
      ∧ ((∀ inquiry st', inquiry ∈ new → (process_inquiry svc inquiry st').1 = Done tt) →
           exit_status (main svc st).1 = 0)
      ∧ ((∀ done inquiry rest st_k,
             new = done ++ inquiry :: rest →
             process_all svc done st2 = (Done tt, st_k) →
             (process_inquiry svc inquiry st_k).1 = Done tt) →
           exit_status (main svc st).1 = 0)
      ∧ (∀ inquiry rest e st',
           new = inquiry :: rest →
           process_inquiry svc inquiry
             (extend (with_hidden w2 st)
                [Print LStart; SheetAuth; SheetRead; Print (LFound (length new))])
           = (Raised e, st') →
           main svc st = (Raised e, st') ∧ exit_status (main svc st).1 = 1)
      ∧ (∀ done inquiry rest st_k e st',
           new = done ++ inquiry :: rest →
           process_all svc done st2 = (Done tt, st_k) →
           process_inquiry svc inquiry st_k = (Raised e, st') →
           main svc st = (Raised e, st') ∧ exit_status (main svc st).1 = 1)
      ∧ (∀ e, (main svc st).1 = Raised e →
           ∃ done inquiry rest st_k,
             new = done ++ inquiry :: rest
             ∧ process_all svc done st2 = (Done tt, st_k)
             ∧ process_inquiry svc inquiry st_k = (Raised e, (main svc st).2)))
  ∧ (∀ e w1, sheets_auth svc (hidden st) = (Raised e, w1) →
       exit_status (main svc st).1 = 1)
  ∧ (∀ w1 e w2, sheets_auth svc (hidden st) = (Done tt, w1) →
       sheets_get svc w1 = (Raised e, w2) →
       exit_status (main svc st).1 = 1)
  ∧ (∀ inquiry (st0 : state W) e,
       (process_inquiry svc inquiry st0).1 = Raised e →
       ∃ added, trace (process_inquiry svc inquiry st0).2 = trace st0 ++ added
                ∧ count is_insert added = 1%nat).
Proof.
  split; [|split; [|split]].
  - intros w1 result w2 Hauth Hget new st2.
    assert (fetch_new_inquiries svc (extend (with_hidden w1 st) [Print LStart; SheetAuth])
            = (Done new, st2)) as Hfetch.
    { rewrite fetch_new_inquiries_run. cbn [hidden extend with_hidden]. rewrite Hget.
      cbv zeta. fold new. subst st2. unfold extend, with_hidden.
      cbn [hidden sheet table trace]. by rewrite <- app_assoc. }
    assert (main svc st
            = match new with
              | [] => (Done tt, extend st2 [Print LNoNew; Print LFinished])
              | _ :: _ =>
                  match process_all svc new st2 with
                  | (Done _, st3) => (Done tt, extend st3 [Print LFinished])
                  | (Raised e, st3) => (Raised e, st3)
                  end
              end) as Hmain.
    { rewrite main_run, Hauth. cbv zeta. rewrite Hfetch. by destruct new. }
    assert (∀ done inquiry rest st_k e st',
              new = done ++ inquiry :: rest →
              process_all svc done st2 = (Done tt, st_k) →
              process_inquiry svc inquiry st_k = (Raised e, st') →
              main svc st = (Raised e, st') ∧ exit_status (main svc st).1 = 1) as Hplace.
    { intros done inquiry rest st_k e st' Hnew Hd Hr.
      assert (main svc st = (Raised e, st')) as Hm.
      { rewrite Hmain, Hnew.
        rewrite (process_all_raises_at svc done inquiry rest st2 st_k st' e Hd Hr).
        by destruct done. }
      by rewrite Hm. }
    assert (∀ e, (main svc st).1 = Raised e →
              ∃ done inquiry rest st_k,
                new = done ++ inquiry :: rest
                ∧ process_all svc done st2 = (Done tt, st_k)
                ∧ process_inquiry svc inquiry st_k = (Raised e, (main svc st).2)) as Hwhere.
    { intros e. rewrite Hmain. destruct new as [|i rest] eqn:Hnew; [done|].
      destruct (process_all svc (i :: rest) st2) as [[[]|e'] st3] eqn:Hall; [done|].
      intros [= ->].
      destruct (process_all_raises_split svc (i :: rest) st2 e)
        as (done & inquiry & rest' & st_k & Hl & Hd & Hr); [by rewrite Hall|].
      rewrite Hall in Hr. by exists done, inquiry, rest', st_k. }
    split; [|split; [|split; [|split; [|split]]]]; try done.
    + intros Hnew. by rewrite Hmain, Hnew.
    + intros Hall. rewrite Hmain. destruct new as [|i rest] eqn:Hnew; [done|].
      pose proof (process_all_done svc (i :: rest) st2 Hall) as Hdone.
      by destruct (process_all svc (i :: rest) st2) as [[[]|e] st3].
    + intros Hall. destruct (main svc st).1 as [[]|e] eqn:Hm; [done|].
      destruct (Hwhere e eq_refl) as (done & inquiry & rest & st_k & Hl & Hd & Hr).
      specialize (Hall done inquiry rest st_k Hl Hd). by rewrite Hr in Hall.
    + intros inquiry rest e st' Hnew Hraise.
      apply (Hplace [] inquiry rest st2 e st'); [done | done |].
      assert ((Z.of_nat (length (default [] result)) <? 2) = false) as Hlen.
      { unfold new in Hnew. destruct (default [] result) as [|h [|r rs]]; try done.
        apply Z.ltb_ge. cbn [length]. lia. }
      subst st2. by rewrite Hlen.
  - intros e w1 Hauth. rewrite main_run, Hauth. done.
  - intros w1 e w2 Hauth Hget. rewrite main_run, Hauth. cbv zeta.
    rewrite fetch_new_inquiries_run. cbn [hidden extend with_hidden]. by rewrite Hget.
  - intros inquiry st0 e. apply process_inquiry_raises.
Qed.

(** C9, as amended.  A result whose score is a string is handed
    unchanged to the INSERT and to the row of the write-back, without a
    check; the comparison of the notifier's guard raises on it, before
    any post.  So when the classifier returned such a result and the
    store accepted it, the processing of the inquiry ends with
    [TypeError] after the insert: nothing is posted and nothing is
    written back.  An integer score, of whatever size, passes the
    guard. *)
Theorem string_score_stops_at_notifier {W} (svc : Services W)
    inquiry ai_result (st : state W) s :
  ai_result !! "alignment_score" = Some (VStr s) →
  last (insert_params inquiry ai_result) = Some (VStr s)
  ∧ last (update_cells ai_result) = Some (VStr s)
  ∧ send_slack_alert svc inquiry ai_result st = (Raised TypeError, st)
  ∧ (∀ st1 w,
       truthy (py_get inquiry "Opportunity Description") = true →
       analyze_with_ai svc (py_get inquiry "Opportunity Description")
         (extend st [Print (LProcessing (py_get inquiry "Company Name"))])
       = (Done (Some ai_result), st1) →
       db_execute svc (insert_params inquiry ai_result) (hidden st1) = (Done tt, w) →
       process_inquiry svc inquiry st
       = (Raised TypeError,
          Build_state w (sheet st1) (table st1 ++ [insert_params inquiry ai_result])
            (trace st1 ++ [DBInsert (insert_params inquiry ai_result);
                           Print (LStored (py_get inquiry "Company Name"))])))
  ∧ (∀ n ai', ai' !! "alignment_score" = Some (VInt n) →
       py_lt_int (py_get_or ai' "alignment_score" (VInt 0)) 4 = Done (n <? 4)).
Proof.
  intros Hs.
  assert (∀ st0 : state W,
            send_slack_alert svc inquiry ai_result st0 = (Raised TypeError, st0)) as Hslack.
  { intros st0. rewrite send_slack_alert_run. unfold py_get_or. by rewrite Hs. }
  split; [|split; [|split; [|split]]].
  - unfold insert_params, py_get. by rewrite Hs.
  - unfold update_cells, py_get. by rewrite Hs.
  - apply Hslack.
  - intros st1 w Hd Ha Hdb. unfold process_inquiry, bind. rewrite print_run, Hd.
    cbn [negb]. rewrite Ha.
    assert (truthy (VDict ai_result) = true) as ->.
    { cbn. apply negb_true_iff, bool_decide_eq_false. intros ->.
      by rewrite lookup_empty in Hs. }
    cbn [negb]. rewrite store_in_database_run. cbv zeta. rewrite Hdb.
    by rewrite Hslack.
  - intros n ai' Hn. unfold py_get_or. by rewrite Hn.
Qed.

(** C5, as amended.  A payload wrapped in a code block, tagged [json]
    or not, cleans to the same text as the payload alone, so both decode
    alike whatever the decoder; cleaning twice is cleaning once; and a
    payload that holds no run of three back-ticks comes out as it went
    in, but for the white space around it. *)
Theorem fences_are_removed {W} (svc : Services W) (payload : string) :
  clean_response (fenced_json payload) = clean_response payload
  ∧ clean_response (fenced_plain payload) = clean_response payload
  ∧ json_loads svc (clean_response (fenced_json payload))
    = json_loads svc (clean_response payload)
  ∧ clean_response (clean_response payload) = clean_response payload
  ∧ (PyStr.occurs fence payload = false →
       clean_response payload = PyStr.strip payload
       ∧ clean_response (fenced_json payload) = PyStr.strip payload
       ∧ json_loads svc (clean_response (fenced_json payload))
         = json_loads svc (PyStr.strip payload)).
Proof.
  pose proof (CleanFacts.clean_response_fenced_json payload) as Hj.
  pose proof (CleanFacts.clean_response_fenced_plain payload) as Hp.
  repeat split; try done.
  - by rewrite Hj.
  - apply CleanFacts.clean_response_idem.
  - by apply CleanFacts.clean_response_absent.
  - rewrite Hj. by apply CleanFacts.clean_response_absent.
  - rewrite Hj. by rewrite CleanFacts.clean_response_absent.
Qed.

(** * Worked examples *)

(** The scenario of the specification: of three data rows, the first and
    the third are selected, with row positions 2 and 4. *)
Example scenario_selection :
  blank_indices sample_header (tail sample_tab) = [0; 2]%nat
  ∧ (λ inquiry, py_get inquiry "row_index") <$> select_inquiries sample_tab
    = [VInt 2; VInt 4]
  ∧ (λ inquiry, py_get inquiry "Company Name") <$> select_inquiries sample_tab
    = [VStr "Acme"; VStr "Gamma"].
Proof. by vm_compute. Qed.

Lemma selector_keeps_blank_rows_witness :
  select_inquiries [sample_header] = []
  ∧ select_inquiries sample_tab
    = inquiry_at sample_header (tail sample_tab)
        <$> blank_indices sample_header (tail sample_tab)
  ∧ 2%nat ∈ blank_indices sample_header (tail sample_tab)
  ∧ inquiry_at sample_header (tail sample_tab) 2 !! "Company Name"%string
    = Some (VStr "Gamma").
Proof.
  split; [|split; [|split]].
  - apply (proj1 (selector_keeps_blank_rows [sample_header])). simpl. lia.
  - apply (proj1 (proj2 (selector_keeps_blank_rows sample_tab)
                    sample_header (tail sample_tab) eq_refl)).
  - apply (proj1 (proj2 (proj2 (proj2 (selector_keeps_blank_rows sample_tab)
                                  sample_header (tail sample_tab) eq_refl))) 2%nat).
    eexists. split; [reflexivity|]. right. exists 5%nat, "  "%string.
    split; [reflexivity|]. split; [reflexivity|]. split.
    + intros j Hj Hlen. simpl in Hlen. lia.
    + intros c [<-|[<-|[]]]; right; left; simpl; lia.
  - apply (proj1 (proj2 (proj2 (proj2 (proj2 (proj2 (selector_keeps_blank_rows sample_tab)
                                  sample_header (tail sample_tab) eq_refl)))))
             2%nat
             ["2024-05-03"; "Gamma"; "c@gamma.pk"; "gamma.pk"; "Payroll SaaS"; "  "]%string
             1%nat "Company Name"%string "Gamma"%string);
      [reflexivity | discriminate | reflexivity | reflexivity |].
    intros [|[|[|[|[|[|j]]]]]] Hj Hlen; simpl in Hlen; try lia; discriminate.
Defined.

(** The scenario's answer decodes to the scenario's result, fenced or
    not. *)
Example scenario_answer_decodes :
  Json.json_decode sample_answer = Done (VDict sample_result)
  ∧ Json.json_decode (clean_response (fenced_json sample_answer))
    = Done (VDict sample_result).
Proof. by vm_compute. Qed.

Lemma classifier_failure_is_skipped_witness :
  process_inquiry model_down sample_inquiry start
  = (Done tt,
     extend
       (analyze_with_ai model_down (py_get sample_inquiry "Opportunity Description")
          (extend start [Print (LProcessing (py_get sample_inquiry "Company Name"))])).2
       [Print LSkipAIFailure]).
Proof.
  refine (proj1 (proj2 (classifier_failure_is_skipped model_down)
                   sample_inquiry [] start _ _ _)).
  - vm_compute. reflexivity.
  - vm_compute. reflexivity.
Defined.

Lemma slack_alert_threshold_witness :
  ∃ o w rest,
    send_slack_alert webhook_down sample_inquiry sample_result start
    = (o, extend (with_hidden w start)
            (SlackPost (alert_message sample_inquiry sample_result) :: rest))
    ∧ count is_post (SlackPost (alert_message sample_inquiry sample_result) :: rest) = 1%nat
    ∧ (∀ status text,
         (requests_post webhook_down (alert_message sample_inquiry sample_result)
            (hidden start)).1 = Done (status, text) →
         o = Done tt
         ∧ rest = [Print (if status =? 200 then LSlackSent
                          else LSlackFailed status text)]).
Proof.
  apply (proj1 (slack_alert_threshold webhook_down sample_inquiry sample_result start) 5).
  - vm_compute. reflexivity.
  - lia.
Defined.

(** A webhook that answers 500 is logged and the notifier returns. *)
Example webhook_failure_is_logged :
  send_slack_alert webhook_down sample_inquiry sample_result start
  = (Done tt,
     extend (with_hidden 1%nat start)
       [SlackPost (alert_message sample_inquiry sample_result);
        Print (LSlackFailed 500 "ok")]).
Proof. by vm_compute. Qed.

(** C4, as the claim states it, fails: of the three derived fields the
    INSERT is not given the suggested next step. *)
Lemma store_omits_next_step :
  ¬ (∀ inquiry ai_result,
       Forall (λ k, py_get ai_result k ∈ insert_params inquiry ai_result)
         ["summary"; "alignment_score"; "suggested_next_step"]).
Proof.
  intros H. specialize (H sample_inquiry sample_result).
  apply Forall_cons_1 in H as [_ H]. apply Forall_cons_1 in H as [_ H].
  apply Forall_cons_1 in H as [H _].
  apply list_elem_of_In in H. vm_compute in H.
  repeat (destruct H as [H|H]; [discriminate H|]). exact H.
Qed.

Lemma store_receives_summary_and_score_witness :
  ∃ st', store_in_database (all_fine sample_answer) sample_inquiry sample_result start
         = (Done tt, st')
    ∧ table st' = table start ++ [insert_params sample_inquiry sample_result]
    ∧ sheet st' = sheet start.
Proof.
  refine (proj2 (proj2 (proj2 (proj2 (proj2 (proj2
            (store_receives_summary_and_score (all_fine sample_answer)
               sample_inquiry sample_result start)))))) 1%nat _).
  vm_compute. reflexivity.
Defined.

(** C5, as the claim states it, fails: a payload that decodes, with
    three back-ticks inside a string, decodes to another object once it
    is cleaned. *)
Lemma cleaning_alters_backtick_payload :
  Json.json_decode backtick_payload
  = Done (VDict (<["summary" := VStr "a```b"]> ∅))
  ∧ Json.json_decode (clean_response (fenced_json backtick_payload))
    = Done (VDict (<["summary" := VStr "ab"]> ∅))
  ∧ Json.json_decode (clean_response (fenced_json backtick_payload))
    ≠ Json.json_decode backtick_payload.
Proof.
  split; [by vm_compute|]. split; [by vm_compute|].
  intros H.
  apply (f_equal (λ o, match o with
                       | Done (VDict d) => d !! "summary"
                       | _ => None
                       end)) in H.
  vm_compute in H. discriminate H.
Qed.

Lemma fences_are_removed_witness :
  clean_response sample_answer = PyStr.strip sample_answer
  ∧ clean_response (fenced_json sample_answer) = PyStr.strip sample_answer
  ∧ json_loads (all_fine sample_answer) (clean_response (fenced_json sample_answer))
    = json_loads (all_fine sample_answer) (PyStr.strip sample_answer).
Proof.
  refine (proj2 (proj2 (proj2 (proj2
            (fences_are_removed (all_fine sample_answer) sample_answer)))) _).
  vm_compute. reflexivity.
Defined.

(** C6, as the claim states it, fails: an answer that has a score and no
    summary decodes to a result that the classifier returns; the run
    reaches the write-back with it, the row of values sent holds a null
    in the place of the summary, and cell G2 keeps the text it had, while
    F2 and H2 are written. *)
Lemma write_back_keeps_old_summary :
  Json.json_decode score_only_answer = Done (VDict score_only_result)
  ∧ (update_sheet (all_fine score_only_answer) (VInt 2) score_only_result
       start_with_G2).1 = Done tt
  ∧ sheet (update_sheet (all_fine score_only_answer) (VInt 2) score_only_result
             start_with_G2).2 !! (2, 7) = Some (VStr "old summary")
  ∧ (main (all_fine score_only_answer) start_with_G2).1 = Done tt
  ∧ List.filter is_update (trace (main (all_fine score_only_answer) start_with_G2).2)
    = [SheetUpdate (VInt 2) [VStr "Processed"; VNone; VInt 5];
       SheetUpdate (VInt 4) [VStr "Processed"; VNone; VInt 5]]
  ∧ sheet (main (all_fine score_only_answer) start_with_G2).2 !! (2, 6)
    = Some (VStr "Processed")
  ∧ sheet (main (all_fine score_only_answer) start_with_G2).2 !! (2, 7)
    = Some (VStr "old summary")
  ∧ sheet (main (all_fine score_only_answer) start_with_G2).2 !! (2, 8)
    = Some (VInt 5).
Proof. by vm_compute. Qed.

Lemma write_back_touches_three_cells_witness :
  ∃ st',
    update_sheet (all_fine score_only_answer) (VInt 2) score_only_result start_with_G2
    = (Done tt, st')
    ∧ trace st'
      = trace start_with_G2
        ++ [SheetUpdate (VInt 2)
              [VStr "Processed"; py_get score_only_result "summary";
               py_get score_only_result "alignment_score"];
            Print (LSheetUpdated (VInt 2))]
    ∧ table st' = table start_with_G2
    ∧ sheet st' !! (2, col_F) = Some (VStr "Processed")
    ∧ (∀ v, score_only_result !! "summary" = Some v → v ≠ VNone →
            sheet st' !! (2, col_F + 1) = Some v)
    ∧ (∀ v, score_only_result !! "alignment_score" = Some v → v ≠ VNone →
            sheet st' !! (2, col_F + 2) = Some v)
    ∧ (py_get score_only_result "summary" = VNone →
            sheet st' !! (2, col_F + 1) = sheet start_with_G2 !! (2, col_F + 1))
    ∧ (py_get score_only_result "alignment_score" = VNone →
            sheet st' !! (2, col_F + 2) = sheet start_with_G2 !! (2, col_F + 2))
    ∧ (∀ r' c, ¬ (r' = 2 ∧ col_F ≤ c ≤ col_F + 2) →
            sheet st' !! (r', c) = sheet start_with_G2 !! (r', c)).
Proof.
  apply (write_back_touches_three_cells (all_fine score_only_answer) 2
           score_only_result start_with_G2 1%nat).
  vm_compute. reflexivity.
Defined.

(** The scenario's write-back: F2, G2 and H2 hold [Processed], the
    summary and 5. *)
Example scenario_write_back :
  map_to_list (sheet (update_sheet (all_fine sample_answer) (VInt 2) sample_result start).2)
  ≡ₚ [((2, 6), VStr "Processed"); ((2, 7), VStr "B2B SaaS for logistics");
      ((2, 8), VInt 5)].
Proof. vm_compute. by repeat constructor. Qed.

Lemma missing_description_is_skipped_witness :
  process_inquiry (all_fine sample_answer) no_description_inquiry start
  = (Done tt,
     extend start [Print (LProcessing (py_get no_description_inquiry "Company Name"));
                   Print LSkipNoDescription]).
Proof.
  refine (proj1 (missing_description_is_skipped (all_fine sample_answer)
                   no_description_inquiry [] start _)).
  left. vm_compute. reflexivity.
Defined.

(** C8, as the claim states it, fails: when the insert of the first
    inquiry raises, the exception reaches the top level, the exit status
    is 1 and the second inquiry is never looked at. *)
Lemma run_aborts_on_store_error :
  (main store_down start).1 = Raised (ServiceError "OperationalError")
  ∧ exit_status (main store_down start).1 = 1
  ∧ length (select_inquiries sample_tab) = 2%nat
  ∧ count is_ai_call (trace (main store_down start).2) = 1%nat.
Proof. by vm_compute. Qed.

Lemma run_exit_status_witness :
  exit_status (main header_only start).1 = 0
  ∧ exit_status (main store_down start).1 = 1
  ∧ ∃ st', main store_down_for_gamma start
           = (Raised (ServiceError "OperationalError"), st')
           ∧ exit_status (main store_down_for_gamma start).1 = 1.
Proof.
  split; [|split].
  - refine (proj1 (proj1 (run_exit_status header_only start)
                     1%nat (Some [sample_header]) 2%nat _ _) _);
      vm_compute; reflexivity.
  - edestruct (proj1 (run_exit_status store_down start) 1%nat (Some sample_tab) 2%nat)
      as (_ & _ & _ & H & _); [vm_compute; reflexivity..|].
    eapply H; vm_compute; reflexivity.
  - edestruct (proj1 (run_exit_status store_down_for_gamma start)
                 1%nat (Some sample_tab) 2%nat)
      as (_ & _ & _ & _ & H & _); [vm_compute; reflexivity..|].
    eexists. eapply (H [sample_inquiry] gamma_inquiry []); vm_compute; reflexivity.
Defined.

(** A store that fails for the second selected inquiry only: the first
    inquiry is stored, notified and written back, then the run ends at
    the second insert with exit status 1. *)
Example run_aborts_at_second_inquiry :
  select_inquiries sample_tab = [sample_inquiry; gamma_inquiry]
  ∧ (main store_down_for_gamma start).1 = Raised (ServiceError "OperationalError")
  ∧ exit_status (main store_down_for_gamma start).1 = 1
  ∧ length (table (main store_down_for_gamma start).2) = 1%nat
  ∧ count is_insert (trace (main store_down_for_gamma start).2) = 2%nat
  ∧ count is_post (trace (main store_down_for_gamma start).2) = 1%nat
  ∧ count is_update (trace (main store_down_for_gamma start).2) = 1%nat.
Proof. by vm_compute. Qed.

(** A model that is down fails every classification, and the run still
    ends with exit status 0, nothing stored. *)
Example run_with_model_down :
  (main model_down start).1 = Done tt
  ∧ table (main model_down start).2 = []
  ∧ count is_ai_call (trace (main model_down start).2) = 2%nat
  ∧ count is_insert (trace (main model_down start).2) = 0%nat.
Proof. by vm_compute. Qed.

(** C9, as the claim states it, fails: with the score the string 5, the
    insert is issued with that string, the guard of the notifier raises,
    and neither post nor write-back follows. *)
Lemma string_score_raises :
  Json.json_decode string_score_answer = Done (VDict string_score_result)
  ∧ (main (all_fine string_score_answer) start).1 = Raised TypeError
  ∧ List.filter (λ e, negb (is_print e))
      (trace (main (all_fine string_score_answer) start).2)
    = [SheetAuth; SheetRead; AICall (VStr "B2B SaaS for logistics");
       DBInsert [VStr "2024-05-01"; VStr "Acme"; VStr "a@acme.pk"; VStr "acme.pk";
                 VStr "B2B SaaS for logistics"; VStr "Processed";
                 VStr "B2B SaaS for logistics"; VStr "5"]].
Proof. by vm_compute. Qed.

Lemma string_score_stops_at_notifier_witness :
  send_slack_alert (all_fine string_score_answer) sample_inquiry string_score_result start
  = (Raised TypeError, start).
Proof.
  refine (proj1 (proj2 (proj2
            (string_score_stops_at_notifier (all_fine string_score_answer)
               sample_inquiry string_score_result start "5" _)))).
  vm_compute. reflexivity.
Defined.

Lemma falsy_answer_is_skipped_witness :
  ∃ l,
    let st' := extend (with_hidden 1%nat start)
                 [Print (LProcessing (py_get sample_inquiry "Company Name"));
                  AICall (py_get sample_inquiry "Opportunity Description");
                  Print l; Print LSkipAIFailure] in
    process_inquiry (all_fine "{}") sample_inquiry start = (Done tt, st')
    ∧ sheet st' = sheet start ∧ table st' = table start
    ∧ (VDict ∅ = VDict ∅ → l = LAISuccess VNone)
    ∧ process_all (all_fine "{}") [sample_inquiry] start
      = process_all (all_fine "{}") [] st'.
Proof.
  apply (falsy_answer_is_skipped (all_fine "{}") sample_inquiry [] start "{}" 1%nat (VDict ∅));
    vm_compute; reflexivity.
Defined.

(** An answer of [{}] for every inquiry: each is printed as a success
    with score [None] and then skipped. *)
Example run_with_empty_object :
  (main (all_fine "{}") start).1 = Done tt
  ∧ table (main (all_fine "{}") start).2 = []
  ∧ sheet (main (all_fine "{}") start).2 = ∅
  ∧ count is_post (trace (main (all_fine "{}") start).2) = 0%nat
  ∧ count is_update (trace (main (all_fine "{}") start).2) = 0%nat.
Proof. by vm_compute. Qed.

(** The scenario, run to its end: both new rows are stored, posted and
    written back. *)
Example scenario_run :
  (main (all_fine sample_answer) start).1 = Done tt
  ∧ table (main (all_fine sample_answer) start).2
    = [insert_params sample_inquiry sample_result;
       [VStr "2024-05-03"; VStr "Gamma"; VStr "c@gamma.pk"; VStr "gamma.pk";
        VStr "Payroll SaaS"; VStr "Processed"; VStr "B2B SaaS for logistics"; VInt 5]]
  ∧ count is_post (trace (main (all_fine sample_answer) start).2) = 2%nat
  ∧ sheet (main (all_fine sample_answer) start).2 !! (4, 6) = Some (VStr "Processed").
Proof. by vm_compute. Qed.

(** * Further properties *)

(** ** Lookups in the dictionary of a row *)

(** X2.  In the dictionary of a row, a name that is not in the header
    is absent; the cell of a column is found under the column's name
    when no later column that the row still reaches has the same name (of
    two columns with one name the later wins); and under a header
    without repeated names each name gives the cell at its own position,
    absent when the row ends before it. *)
Theorem row_dict_lookup (header row : list string) :
  (∀ k, k ∉ header → row_dict header row !! k = None)
  ∧ (∀ i k v, header !! i = Some k → row !! i = Some v →
       (∀ j, (i < j)%nat → (j < length row)%nat → header !! j ≠ Some k) →
       row_dict header row !! k = Some v)
  ∧ (NoDup header → ∀ i k, header !! i = Some k → row_dict header row !! k = row !! i).
Proof.
  unfold row_dict, py_dict. split; [|split].
  - intros k Hk. rewrite py_dict_zip_other; [done|].
    intros j _ Hj. apply Hk. by eapply list_elem_of_lookup_2.
  - intros i k v Hh Hr Hlast. by apply (py_dict_zip_last header row ∅ i).
  - intros Hnd i k Hh. destruct (row !! i) as [v|] eqn:Hr.
    + apply (py_dict_zip_last header row ∅ i); [done | done |].
      intros j Hij _ Hj. pose proof (NoDup_lookup _ _ _ _ Hnd Hh Hj). lia.
    + rewrite py_dict_zip_other; [done|].
      intros j Hj Hhj. pose proof (NoDup_lookup _ _ _ _ Hnd Hh Hhj). subst j.
      apply lookup_ge_None in Hr. lia.
Qed.

(** ** Row positions *)

Lemma StronglySorted_filter {A} (R : A → A → Prop) (P : A → Prop)
    `{∀ x, Decision (P x)} (l : list A) :
  StronglySorted R l → StronglySorted R (filter P l).
Proof.
  induction 1 as [|x l Hs IH Hx]; [constructor|].
  rewrite filter_cons. case_decide; [|done].
  constructor; [done|]. apply Forall_forall. intros y Hy.
  apply list_elem_of_filter in Hy as [_ Hy]. by eapply Forall_forall in Hx.
Qed.

Lemma StronglySorted_seq a n : StronglySorted lt (seq a n).
Proof.
  revert a. induction n as [|n IH]; intros a; cbn [seq]; constructor; [apply IH|].
  apply Forall_forall. intros y Hy. apply elem_of_seq in Hy. lia.
Qed.

(** X1.  The inquiries selected from a tab carry the positions
    n + 2 of the data rows they come from: integers that grow strictly
    along the list, from 2 up to the number of rows read.  So no two
    inquiries point at one row, none points at the header row, and
    looking up [row_index] in a selected inquiry never fails. *)
Theorem selected_row_positions (values : list (list string)) :
  ∃ ns : list nat,
    (λ inquiry, py_getitem inquiry "row_index") <$> select_inquiries values
    = (λ n, Done (VInt (Z.of_nat n + 2))) <$> ns
    ∧ StronglySorted lt ns
    ∧ Forall (λ n, (n + 2 ≤ length values)%nat) ns
    ∧ length (select_inquiries values) = length ns.
Proof.
  destruct values as [|header rows].
  { exists []. repeat split; constructor. }
  exists (blank_indices header rows).
  assert (select_inquiries (header :: rows)
          = inquiry_at header rows <$> blank_indices header rows) as ->.
  { unfold select_inquiries. destruct rows as [|r rs]; [done|].
    cbn [length]. destruct (Z.ltb_spec (Z.of_nat (S (S (length rs)))) 2); [lia|].
    apply select_from_zero. }
  repeat split.
  - rewrite <- list_fmap_compose. apply list_fmap_ext. intros _ n _.
    unfold compose, py_getitem, inquiry_at, inquiry_of. by rewrite lookup_insert_eq.
  - apply StronglySorted_filter, StronglySorted_seq.
  - apply Forall_forall. intros n Hn. apply blank_indices_elem in Hn as (row & Hrow & _).
    apply lookup_lt_Some in Hrow. cbn [length]. lia.
  - by rewrite length_fmap.
Qed.

(** ** The cleaned answer *)

Module CleanMore.
Import PyStr PyStrFacts CleanFacts.
#[local] Arguments String.append !_ _ / : simpl nomatch.

Lemma length_lstrip s : (String.length (lstrip s) ≤ String.length s)%nat.
Proof. induction s as [|c s IH]; simpl; [done|]. destruct (isspace c); simpl; lia. Qed.

Lemma length_rstrip s : (String.length (rstrip s) ≤ String.length s)%nat.
Proof.
  induction s as [|c s IH]; simpl; [done|].
  destruct (isspace c && is_empty (rstrip s)); simpl; lia.
Qed.

Lemma length_strip s : (String.length (strip s) ≤ String.length s)%nat.
Proof. unfold strip. pose proof (length_rstrip (lstrip s)). pose proof (length_lstrip s). lia. Qed.

Lemma length_remove old k s :
  (String.length (replace_from old EmptyString k s) ≤ String.length s)%nat.
Proof.
  revert k. induction s as [|c s IH]; intros k; [done|].
  cbn [replace_from String.length]. destruct k as [|k].
  - destruct (String.prefix old (String c s)).
    + cbn [String.append]. specialize (IH (String.length old - 1)%nat). lia.
    + cbn [String.length]. specialize (IH 0%nat). lia.
  - specialize (IH k). lia.
Qed.

Lemma remove_json_blank w1 w2 s :
  all_chars isspace w1 = true → all_chars isspace w2 = true →
  remove_json (w1 +:+ s +:+ w2) = w1 +:+ remove_json s +:+ w2.
Proof.
  intros H1 H2. unfold remove_json, fence_json.
  rewrite replace_from_blank_l by (done || apply isspace_avoids_fence_json).
  by rewrite replace_from_blank_r by (done || apply isspace_avoids_fence_json).
Qed.

Lemma remove_fence_blank w1 w2 s :
  all_chars isspace w1 = true → all_chars isspace w2 = true →
  remove_fence (w1 +:+ s +:+ w2) = w1 +:+ remove_fence s +:+ w2.
Proof.
  intros H1 H2. unfold remove_fence, fence.
  rewrite replace_from_blank_l by (done || apply isspace_avoids_fence).
  by rewrite replace_from_blank_r by (done || apply isspace_avoids_fence).
Qed.

End CleanMore.

(** X3.  The text handed to the decoder holds no run of three
    back-ticks, has no white space at either end, and is never longer
    than the model's answer; white space around the answer makes no
    difference to it. *)
Theorem cleaned_text_shape (text : string) :
  PyStr.occurs fence (clean_response text) = false
  ∧ PyStr.strip (clean_response text) = clean_response text
  ∧ (String.length (clean_response text) ≤ String.length text)%nat
  ∧ (∀ w1 w2, PyStr.all_chars PyStr.isspace w1 = true →
              PyStr.all_chars PyStr.isspace w2 = true →
              clean_response (w1 +:+ text +:+ w2) = clean_response text).
Proof.
  split; [apply CleanFacts.clean_response_no_fence|]. split; [|split].
  - rewrite CleanFacts.clean_response_eq. apply PyStrFacts.strip_strip.
  - rewrite CleanFacts.clean_response_eq.
    pose proof (CleanMore.length_strip
                  (remove_fence (remove_json (PyStr.strip text)))).
    pose proof (CleanMore.length_remove fence 0 (remove_json (PyStr.strip text))).
    pose proof (CleanMore.length_remove fence_json 0 (PyStr.strip text)).
    pose proof (CleanMore.length_strip text).
    unfold remove_fence, remove_json in *. lia.
  - intros w1 w2 H1 H2.
    rewrite <- (CleanFacts.clean_response_core text), <- CleanFacts.clean_response_core.
    rewrite CleanMore.remove_json_blank, CleanMore.remove_fence_blank by done.
    rewrite PyStrFacts.strip_blank_app by done. by rewrite PyStrFacts.strip_app_blank.
Qed.

(** ** The database file *)

(** X4.  Setting the database up creates the table when it is missing
    and changes nothing otherwise: every table that was there, with its
    rows, is as before (an [opportunities] table too), so a second
    set-up is a no-op; and on a database without the table, the new
    table is empty and its columns besides the auto-increment [id] are
    the eight that the INSERT of [store_in_database] names, in the same
    order. *)
Theorem setup_database_creates_once (db : gmap string sql_table) :
  setup_database (setup_database db) = setup_database db
  ∧ is_Some (setup_database db !! "opportunities")
  ∧ (∀ name t, db !! name = Some t → setup_database db !! name = Some t)
  ∧ (∀ name, name ≠ "opportunities" → setup_database db !! name = db !! name)
  ∧ (db !! "opportunities" = None →
       ∃ t, setup_database db !! "opportunities" = Some t
            ∧ tbl_rows t = []
            ∧ col_name <$> filter (λ c, col_autoincrement c = false) (tbl_columns t)
              = insert_columns
            ∧ length (tbl_columns t) = S (length (insert_params ∅ ∅))).
Proof.
  unfold setup_database.
  destruct (db !! "opportunities") as [t0|] eqn:Hdb.
  - rewrite Hdb. by repeat split.
  - rewrite lookup_insert_eq. repeat split; try done.
    + intros name t Ht. rewrite lookup_insert_ne; [done|]. intros <-. congruence.
    + intros name Hn. by rewrite lookup_insert_ne.
    + intros _. by eexists.
Qed.

(** ** The steps of the pipeline, one by one *)

(** X5.  The classifier calls the model once, with no second try, and
    answers with a result exactly when the reply is a text whose cleaned
    form decodes to a JSON object; a decoded list, number, string, bool
    or null gives [None], as a failed call or decode does. *)
Theorem classifier_returns_objects {W} (svc : Services W) description (st : state W) :
  (∀ d, (analyze_with_ai svc description st).1 = Done (Some d)
        ↔ ∃ text, (generate_content svc description (hidden st)).1 = Done text
                  ∧ json_loads svc (clean_response text) = Done (VDict d))
  ∧ (∃ l, trace (analyze_with_ai svc description st).2
          = trace st ++ [AICall description; Print l])
  ∧ hidden (analyze_with_ai svc description st).2
    = (generate_content svc description (hidden st)).2.
Proof.
  rewrite analyze_with_ai_run.
  destruct (generate_content svc description (hidden st)) as [reply w].
  cbn [fst snd trace hidden extend with_hidden]. split; [|split; [by eexists | done]].
  intros d. unfold classified. split.
  - destruct reply as [text|e]; [|done].
    destruct (json_loads svc (clean_response text)) as [[]|e] eqn:Hv; try done.
    intros [= ->]. by exists text.
  - intros (text & -> & Hv). by rewrite Hv.
Qed.

(** X6.  When the database driver raises, the exception leaves the
    store as it is raised: one insert was asked for, no row is added to
    the table, the sheet is untouched and the line that reports the
    store is not printed. *)
Theorem store_failure_leaves_table {W} (svc : Services W)
    inquiry ai_result (st : state W) e w :
  db_execute svc (insert_params inquiry ai_result) (hidden st) = (Raised e, w) →
  store_in_database svc inquiry ai_result st
  = (Raised e, extend (with_hidden w st) [DBInsert (insert_params inquiry ai_result)])
  ∧ table (store_in_database svc inquiry ai_result st).2 = table st
  ∧ sheet (store_in_database svc inquiry ai_result st).2 = sheet st.
Proof. intros Hdb. rewrite store_in_database_run. cbv zeta. by rewrite Hdb. Qed.

(** X7.  The notifier never changes the sheet or the table and posts
    at most once.  A score that is present but is a null, a string, a
    list or an object makes the comparison raise [TypeError] before
    anything is posted or printed; a bool passes as 0 or 1, so it is
    never posted; and a post that raises passes its exception on. *)
Theorem notifier_effects {W} (svc : Services W) inquiry ai_result (st : state W) :
  sheet (send_slack_alert svc inquiry ai_result st).2 = sheet st
  ∧ table (send_slack_alert svc inquiry ai_result st).2 = table st
  ∧ (∃ added, trace (send_slack_alert svc inquiry ai_result st).2 = trace st ++ added
              ∧ (count is_post added ≤ 1)%nat
              ∧ count is_insert added = 0%nat ∧ count is_update added = 0%nat
              ∧ count is_ai_call added = 0%nat)
  ∧ (∀ v, ai_result !! "alignment_score" = Some v →
          match v with VInt _ | VBool _ => False | _ => True end →
          send_slack_alert svc inquiry ai_result st = (Raised TypeError, st))
  ∧ (∀ b, ai_result !! "alignment_score" = Some (VBool b) →
          send_slack_alert svc inquiry ai_result st
          = (Done tt, extend st [Print LSlackSkipped]))
  ∧ (∀ n e w, ai_result !! "alignment_score" = Some (VInt n) → 4 ≤ n →
          requests_post svc (alert_message inquiry ai_result) (hidden st) = (Raised e, w) →
          send_slack_alert svc inquiry ai_result st
          = (Raised e, extend (with_hidden w st) [SlackPost (alert_message inquiry ai_result)])).
Proof.
  rewrite send_slack_alert_run.
  split; [|split; [|split; [|split; [|split]]]].
  - destruct (py_lt_int _ 4) as [[]|e]; try done. cbv zeta.
    by destruct (requests_post svc _ _) as [[r|e] w].
  - destruct (py_lt_int _ 4) as [[]|e]; try done. cbv zeta.
    by destruct (requests_post svc _ _) as [[r|e] w].
  - destruct (py_lt_int _ 4) as [[]|e].
    + eexists. split; [reflexivity|]. unfold count; simpl; repeat split; lia.
    + cbv zeta. destruct (requests_post svc _ _) as [[r|e] w];
        (eexists; split; [reflexivity|]; unfold count; simpl; repeat split; lia).
    + exists []. cbn [snd]. rewrite app_nil_r. unfold count; simpl; repeat split; lia.
  - intros v Hv Hk. unfold py_get_or. rewrite Hv. by destruct v.
  - intros b Hb. unfold py_get_or. rewrite Hb. by destruct b.
  - intros n e w Hn H4 Hpost. unfold py_get_or. rewrite Hn. cbn [default from_option id py_lt_int].
    destruct (Z.ltb_spec n 4); [lia|]. cbv zeta. by rewrite Hpost.
Qed.

(** X8.  When the sheet service refuses the update, the exception
    leaves the write-back as it is raised: one update was asked for, no
    cell has changed, the table is untouched and the line that reports
    the update is not printed.  The table is untouched by a write-back
    that succeeds, too. *)
Theorem write_back_failure_leaves_sheet {W} (svc : Services W)
    row_index ai_result (st : state W) :
  table (update_sheet svc row_index ai_result st).2 = table st
  ∧ (∀ e w, sheets_update svc row_index (update_cells ai_result) (hidden st) = (Raised e, w) →
       update_sheet svc row_index ai_result st
       = (Raised e,
          extend (with_hidden w st) [SheetUpdate row_index (update_cells ai_result)])
       ∧ sheet (update_sheet svc row_index ai_result st).2 = sheet st).
Proof.
  rewrite update_sheet_run. cbv zeta. split.
  - by destruct (sheets_update svc _ _ _) as [[[]|e] w].
  - intros e w Hw. by rewrite Hw.
Qed.

(** ** What a run may do *)

Lemma write_back_frame (row : pyval) (cells : list pyval) (g : gmap (Z * Z) pyval) (r c : Z) :
  ¬ (row = VInt r ∧ col_F ≤ c < col_F + Z.of_nat (length cells)) →
  write_back row cells g !! (r, c) = g !! (r, c).
Proof.
  intros Hout. destruct row as [| |r0| | |]; try done. cbn [write_back].
  rewrite write_cells_lookup. case_decide as Hin; [|done].
  destruct Hin as [-> Hc].
  rewrite (proj2 (lookup_ge_None _ _)); [done|].
  destruct (decide (c < col_F + Z.of_nat (length cells))); [|lia].
  exfalso. apply Hout. split; [done | lia].
Qed.

Section Effects.

Context {W : Type} (svc : Services W).

(** A path through [process_inquiry] that ends: its events and rows are
    read off the state it ends in. *)
Local Ltac leaf :=
  eexists _, _;
  cbn [fst snd trace table sheet hidden extend with_hidden];
  rewrite <- ?app_assoc;
  split; [reflexivity|];
  split; [first [reflexivity | symmetry; apply app_nil_r]|];
  unfold count; simpl; repeat split; try lia; try done.

(** What the processing of one inquiry adds to the state. *)
Lemma process_inquiry_effect inquiry (st : state W) :
  ∃ added rows,
    trace (process_inquiry svc inquiry st).2 = trace st ++ added
    ∧ table (process_inquiry svc inquiry st).2 = table st ++ rows
    ∧ (count is_ai_call added ≤ 1)%nat
    ∧ (count is_insert added ≤ count is_ai_call added)%nat
    ∧ (count is_post added ≤ count is_insert added)%nat
    ∧ (count is_update added ≤ count is_insert added)%nat
    ∧ (length rows ≤ count is_insert added)%nat
    ∧ (∀ e, (process_inquiry svc inquiry st).1 = Raised e →
            sheet (process_inquiry svc inquiry st).2 = sheet st)
    ∧ (∀ r c, ¬ (inquiry !! "row_index" = Some (VInt r) ∧ col_F ≤ c ≤ col_F + 2) →
            sheet (process_inquiry svc inquiry st).2 !! (r, c) = sheet st !! (r, c)).
Proof.
  unfold process_inquiry, bind, lift. rewrite print_run.
  destruct (truthy (py_get inquiry "Opportunity Description")); cbn [negb];
    [|rewrite print_run; leaf].
  rewrite analyze_with_ai_run.
  destruct (generate_content svc _ _) as [reply w].
  destruct (classified svc reply).1 as [d|]; [|rewrite print_run; leaf].
  destruct (negb (truthy (VDict d))); [rewrite print_run; leaf|].
  rewrite store_in_database_run. cbv zeta.
  destruct (db_execute svc _ _) as [[[]|e1] w1]; [|leaf].
  rewrite send_slack_alert_run. cbn [hidden].
  pose (tail := λ st0 : state W,
          match py_getitem inquiry "row_index" with
          | Done row => update_sheet svc row d st0
          | Raised e => (Raised e, st0)
          end).
  assert (∀ st0, match py_getitem inquiry "row_index" with
                 | Done row => update_sheet svc row d st0
                 | Raised e => (Raised e, st0)
                 end = tail st0) as Htail by done.
  assert (∀ (st0 : state W) (o : outcome unit) (st' : state W),
            tail st0 = (o, st') →
            ∃ more, trace st' = trace st0 ++ more
              ∧ table st' = table st0
              ∧ count is_ai_call more = 0%nat ∧ count is_insert more = 0%nat
              ∧ count is_post more = 0%nat ∧ (count is_update more ≤ 1)%nat
              ∧ (∀ e, o = Raised e → sheet st' = sheet st0)
              ∧ (∀ r c, ¬ (inquiry !! "row_index" = Some (VInt r) ∧ col_F ≤ c ≤ col_F + 2) →
                   sheet st' !! (r, c) = sheet st0 !! (r, c)))
    as Hupdate.
  { intros st0 o st'. unfold tail, py_getitem.
    destruct (inquiry !! "row_index") as [row|] eqn:Hrow.
    - rewrite update_sheet_run. cbv zeta.
      destruct (sheets_update svc _ _ _) as [[[]|e4] w4]; intros [= <- <-];
        (eexists; cbn [trace table sheet extend with_hidden];
         split; [reflexivity|]; unfold count; simpl; repeat split; try lia; try done).
      intros r c Hout. apply write_back_frame. intros [-> Hc]. apply Hout.
      split; [done|]. cbn in Hc. lia.
    - intros [= <- <-]. exists []. rewrite app_nil_r.
      unfold count; simpl; repeat split; try lia; try done. }
  clearbody tail.
  assert (∀ (st0 : state W) (pre : list event) (rows : list (list pyval)),
            trace st0 = trace st ++ pre → table st0 = table st ++ rows →
            sheet st0 = sheet st →
            count is_ai_call pre = 1%nat → count is_insert pre = 1%nat →
            (count is_post pre ≤ 1)%nat → count is_update pre = 0%nat →
            length rows = 1%nat →
            ∃ added rows',
              trace (tail st0).2 = trace st ++ added
              ∧ table (tail st0).2 = table st ++ rows'
              ∧ (count is_ai_call added ≤ 1)%nat
              ∧ (count is_insert added ≤ count is_ai_call added)%nat
              ∧ (count is_post added ≤ count is_insert added)%nat
              ∧ (count is_update added ≤ count is_insert added)%nat
              ∧ (length rows' ≤ count is_insert added)%nat
              ∧ (∀ e, (tail st0).1 = Raised e → sheet (tail st0).2 = sheet st)
              ∧ (∀ r c, ¬ (inquiry !! "row_index" = Some (VInt r) ∧ col_F ≤ c ≤ col_F + 2) →
                   sheet (tail st0).2 !! (r, c) = sheet st !! (r, c)))
    as Hfinish.
  { intros st0 pre rows Ht Htb Hsh Ha Hi Hp Hu Hl.
    destruct (tail st0) as [o st'] eqn:Hrun.
    apply Hupdate in Hrun as (more & Ht' & Htb' & Ha' & Hi' & Hp' & Hu' & Hsh' & Hfr').
    exists (pre ++ more), rows. cbn [fst snd].
    rewrite Ht', Ht, Htb', Htb, <- app_assoc, !count_app, <- Hsh.
    repeat split; try lia; try done. }
  destruct (py_lt_int _ 4) as [[]|e2]; [| |leaf].
  - cbv beta iota zeta. rewrite Htail.
    eapply Hfinish; cbn [trace table sheet hidden extend with_hidden];
      rewrite <- ?app_assoc; try reflexivity; unfold count; simpl; lia.
  - cbv zeta. destruct (requests_post svc _ _) as [[response|e5] w5]; [|leaf].
    cbv beta iota zeta. rewrite Htail.
    eapply Hfinish; cbn [trace table sheet hidden extend with_hidden];
      rewrite <- ?app_assoc; try reflexivity; unfold count; simpl; lia.
Qed.


(** The same, for the loop over the inquiries. *)
Lemma process_all_effect inquiries (st : state W) :
  ∃ added rows,
    trace (process_all svc inquiries st).2 = trace st ++ added
    ∧ table (process_all svc inquiries st).2 = table st ++ rows
    ∧ (count is_ai_call added ≤ length inquiries)%nat
    ∧ (count is_insert added ≤ count is_ai_call added)%nat
    ∧ (count is_post added ≤ count is_insert added)%nat
    ∧ (count is_update added ≤ count is_insert added)%nat
    ∧ (length rows ≤ count is_insert added)%nat
    ∧ (∀ r c,
         (∀ inquiry, inquiry ∈ inquiries →
            ¬ (inquiry !! "row_index" = Some (VInt r) ∧ col_F ≤ c ≤ col_F + 2)) →
         sheet (process_all svc inquiries st).2 !! (r, c) = sheet st !! (r, c)).
Proof.
  revert st. induction inquiries as [|inquiry rest IH]; intros st.
  { exists [], []. cbn [process_all ret snd length]. rewrite !app_nil_r.
    unfold count. simpl. repeat split; done || lia. }
  rewrite process_all_cons.
  destruct (process_inquiry_effect inquiry st)
    as (a1 & r1 & Ht1 & Htb1 & Ha1 & Hi1 & Hp1 & Hu1 & Hl1 & _ & Hf1).
  destruct (process_inquiry svc inquiry st) as [[[]|e] st1]; cbn [fst snd] in *.
  - destruct (IH st1) as (a2 & r2 & Ht2 & Htb2 & Ha2 & Hi2 & Hp2 & Hu2 & Hl2 & Hf2).
    exists (a1 ++ a2), (r1 ++ r2).
    rewrite Ht2, Ht1, Htb2, Htb1, <- !app_assoc, !count_app, length_app.
    cbn [length]. repeat split; try done; try lia.
    intros r c Hout. rewrite Hf2, Hf1; [done|..].
    + apply Hout, list_elem_of_here.
    + intros i Hi. by apply Hout, list_elem_of_further.
  - exists a1, r1. cbn [length]. repeat split; try done; try lia.
    intros r c Hout. apply Hf1, Hout, list_elem_of_here.
Qed.

End Effects.

(** The inquiries of a tab carry row positions from 2 on. *)
Lemma select_inquiries_positions (values : list (list string)) :
  Forall (λ inquiry, ∃ n : nat,
            inquiry !! "row_index" = Some (VInt (Z.of_nat n + 2))
            ∧ (n + 2 ≤ length values)%nat)
    (select_inquiries values).
Proof.
  destruct values as [|header rows]; [constructor|].
  assert (select_inquiries (header :: rows)
          = inquiry_at header rows <$> blank_indices header rows) as ->.
  { unfold select_inquiries. destruct rows as [|r rs]; [done|].
    cbn [length]. destruct (Z.ltb_spec (Z.of_nat (S (S (length rs)))) 2); [lia|].
    apply select_from_zero. }
  apply Forall_fmap, Forall_forall. intros n Hn. exists n. split.
  - unfold compose, inquiry_at, inquiry_of. apply lookup_insert_eq.
  - apply blank_indices_elem in Hn as (row & Hrow & _).
    apply lookup_lt_Some in Hrow. cbn [length]. lia.
Qed.

(** X9.  Whatever the services answer, the processing of one inquiry
    calls the model at most once, asks for an insert only after that
    call, and posts and asks for an update only after the insert; it
    appends at most one row to the table and removes none; when it
    raises, no cell of the sheet has changed; and the only cells it can
    change are those of columns F to H in the row the inquiry
    carries. *)
Theorem inquiry_effects {W} (svc : Services W) inquiry (st : state W) :
  ∃ added rows,
    trace (process_inquiry svc inquiry st).2 = trace st ++ added
    ∧ table (process_inquiry svc inquiry st).2 = table st ++ rows
    ∧ (count is_ai_call added ≤ 1)%nat
    ∧ (count is_insert added ≤ count is_ai_call added)%nat
    ∧ (count is_post added ≤ count is_insert added)%nat
    ∧ (count is_update added ≤ count is_insert added)%nat
    ∧ (length rows ≤ count is_insert added)%nat
    ∧ (∀ e, (process_inquiry svc inquiry st).1 = Raised e →
            sheet (process_inquiry svc inquiry st).2 = sheet st)
    ∧ (∀ r c, ¬ (inquiry !! "row_index" = Some (VInt r) ∧ col_F ≤ c ≤ col_F + 2) →
            sheet (process_inquiry svc inquiry st).2 !! (r, c) = sheet st !! (r, c)).
Proof. apply process_inquiry_effect. Qed.

(** X10.  A whole run only adds to the trace and to the table: the rows
    that were in the table are still its first rows, in order.  It asks
    for no more inserts than it made model calls, and for no more posts
    and no more updates than inserts.  And it leaves alone every cell of
    the sheet outside columns F to H, and the whole of row 1, the
    header. *)
Theorem run_effects {W} (svc : Services W) (st : state W) :
  trace st `prefix_of` trace (main svc st).2
  ∧ table st `prefix_of` table (main svc st).2
  ∧ (∃ added, trace (main svc st).2 = trace st ++ added
       ∧ (count is_insert added ≤ count is_ai_call added)%nat
       ∧ (count is_post added ≤ count is_insert added)%nat
       ∧ (count is_update added ≤ count is_insert added)%nat
       ∧ (length (table (main svc st).2) ≤ length (table st) + count is_insert added)%nat)
  ∧ (∀ r c, r < 2 ∨ c < col_F ∨ col_F + 2 < c →
        sheet (main svc st).2 !! (r, c) = sheet st !! (r, c)).
Proof.
  assert (∃ added rows,
            trace (main svc st).2 = trace st ++ added
            ∧ table (main svc st).2 = table st ++ rows
            ∧ (count is_insert added ≤ count is_ai_call added)%nat
            ∧ (count is_post added ≤ count is_insert added)%nat
            ∧ (count is_update added ≤ count is_insert added)%nat
            ∧ (length rows ≤ count is_insert added)%nat
            ∧ (∀ r c, r < 2 ∨ c < col_F ∨ col_F + 2 < c →
                 sheet (main svc st).2 !! (r, c) = sheet st !! (r, c)))
    as (added & rows & Ht & Htb & Hi & Hp & Hu & Hl & Hf).
  { rewrite main_run.
    destruct (sheets_auth svc (hidden st)) as [[[]|e] w1]; cbv zeta.
    2:{ eexists _, []. cbn [snd trace table sheet extend with_hidden].
        split; [reflexivity|]. split; [symmetry; apply app_nil_r|].
        unfold count. simpl. repeat split; done || lia. }
    rewrite fetch_new_inquiries_run. cbn [hidden extend with_hidden].
    destruct (sheets_get svc w1) as [[result|e] w2]; cbv zeta.
    2:{ eexists _, []. cbn [snd trace table sheet extend with_hidden].
        rewrite <- app_assoc. split; [reflexivity|]. split; [symmetry; apply app_nil_r|].
        unfold count. simpl. repeat split; done || lia. }
    pose proof (select_inquiries_positions (default [] result)) as Hpos.
    destruct (select_inquiries (default [] result)) as [|i rest] eqn:Hnew.
    { eexists _, []. cbn [snd trace table sheet extend with_hidden].
      rewrite <- !app_assoc. split; [reflexivity|]. split; [symmetry; apply app_nil_r|].
      unfold count. simpl. repeat split; done || lia. }
    match goal with |- context [process_all svc (i :: rest) ?s] => set (st2 := s) end.
    destruct (process_all_effect svc (i :: rest) st2)
      as (a & rs & Ht & Htb & _ & Hi & Hp & Hu & Hl & Hf).
    assert (∀ r c, r < 2 ∨ c < col_F ∨ col_F + 2 < c →
              sheet (process_all svc (i :: rest) st2).2 !! (r, c) = sheet st !! (r, c))
      as Hframe.
    { intros r c Hout. rewrite Hf; [by subst st2|].
      intros inquiry Hin [Hrow Hc].
      eapply Forall_forall in Hpos as (n & Hn & _); [|done].
      rewrite Hrow in Hn. injection Hn as ->. lia. }
    destruct (process_all svc (i :: rest) st2) as [[[]|e] st3]; cbn [fst snd] in *.
    - eexists _, rs. cbn [trace table sheet extend].
      rewrite Ht, Htb. subst st2. cbn [trace table extend with_hidden].
      rewrite <- !app_assoc. split; [reflexivity|]. split; [done|].
      unfold count in *. rewrite ?List.filter_app, ?length_app. simpl.
      repeat split; try lia. done.
    - eexists _, rs. rewrite Ht, Htb. subst st2. cbn [trace table extend with_hidden].
      rewrite <- !app_assoc. split; [reflexivity|]. split; [done|].
      unfold count in *. rewrite ?List.filter_app, ?length_app. simpl.
      repeat split; try lia. done. }
  split; [by exists added|]. split; [by exists rows|]. split; [|done].
  exists added. rewrite Htb, length_app. repeat split; try done. lia.
Qed.

Lemma send_slack_alert_frame {W} (svc : Services W) inquiry ai_result (st : state W) :
  sheet (send_slack_alert svc inquiry ai_result st).2 = sheet st
  ∧ table (send_slack_alert svc inquiry ai_result st).2 = table st.
Proof.
  rewrite send_slack_alert_run.
  destruct (py_lt_int _ 4) as [[]|e]; try done. cbv zeta.
  by destruct (requests_post svc _ _) as [[r|e] w].
Qed.

(** X11.  The loop takes the inquiries in order: processing a list is
    processing its first part and then, from the state that leaves, the
    rest, and an exception in the first part stops the loop there.  It
    makes at most one model call for each inquiry and appends at most
    one row for each. *)
Theorem loop_effects {W} (svc : Services W) l1 l2 (st : state W) :
  process_all svc (l1 ++ l2) st
  = match process_all svc l1 st with
    | (Done _, st1) => process_all svc l2 st1
    | (Raised e, st1) => (Raised e, st1)
    end
  ∧ (∀ e, (process_all svc l1 st).1 = Raised e →
          process_all svc (l1 ++ l2) st = process_all svc l1 st)
  ∧ ∃ added rows,
      trace (process_all svc l1 st).2 = trace st ++ added
      ∧ table (process_all svc l1 st).2 = table st ++ rows
      ∧ (count is_ai_call added ≤ length l1)%nat
      ∧ (length rows ≤ length l1)%nat.
Proof.
  split; [apply process_all_app|]. split.
  - intros e He. rewrite process_all_app.
    by destruct (process_all svc l1 st) as [[[]|e'] st1].
  - destruct (process_all_effect svc l1 st)
      as (added & rows & Ht & Htb & Ha & Hi & _ & _ & Hl & _).
    exists added, rows. repeat split; try done. lia.
Qed.

(** X12.  An inquiry with a description, whose answer decodes to an
    object that is not empty, is carried through when the driver accepts
    the insert, the notifier returns and the sheet accepts the update:
    the store comes first, then the notifier, then the write-back at
    the position the inquiry carries.  The table has one more row, the
    parameters of the insert, and the sheet is what the write-back makes
    of the sheet at the start. *)
Theorem inquiry_fully_processed {W} (svc : Services W)
    inquiry (st : state W) text w1 d w2 st3 row w4 :
  let description := py_get inquiry "Opportunity Description" in
  let company := py_get inquiry "Company Name" in
  let params := insert_params inquiry d in
  let st2 := Build_state w2 (sheet st) (table st ++ [params])
               (trace st ++ [Print (LProcessing company); AICall description;
                             Print (LAISuccess (py_get d "alignment_score"));
                             DBInsert params; Print (LStored company)]) in
  truthy description = true →
  generate_content svc description (hidden st) = (Done text, w1) →
  json_loads svc (clean_response text) = Done (VDict d) →
  d ≠ ∅ →
  db_execute svc params w1 = (Done tt, w2) →
  send_slack_alert svc inquiry d st2 = (Done tt, st3) →
  inquiry !! "row_index" = Some row →
  sheets_update svc row (update_cells d) (hidden st3) = (Done tt, w4) →
  process_inquiry svc inquiry st
  = (Done tt,
     Build_state w4 (write_back row (update_cells d) (sheet st)) (table st ++ [params])
       (trace st3 ++ [SheetUpdate row (update_cells d); Print (LSheetUpdated row)])).
Proof.
  intros description company params st2 Hd Hg Hv Hne Hdb Hslack Hrow Hup.
  pose proof (send_slack_alert_frame svc inquiry d st2) as [Hsh Htb].
  rewrite Hslack in Hsh, Htb. cbn [snd] in Hsh, Htb.
  unfold process_inquiry, bind, lift. rewrite print_run.
  fold description company. rewrite Hd. cbn [negb].
  rewrite analyze_with_ai_run. cbn [hidden extend]. rewrite Hg.
  unfold classified. rewrite Hv. cbn [fst snd].
  assert (truthy (VDict d) = true) as ->.
  { cbn. by apply negb_true_iff, bool_decide_eq_false. }
  cbn [negb]. rewrite store_in_database_run. cbv zeta.
  cbn [hidden extend with_hidden]. fold params. rewrite Hdb.
  match goal with |- context [send_slack_alert svc inquiry d ?s] =>
    replace s with st2
      by (subst st2; cbn [sheet table trace extend with_hidden];
          by rewrite <- !app_assoc)
  end.
  rewrite Hslack. unfold py_getitem. rewrite Hrow.
  rewrite update_sheet_run. cbv zeta. rewrite Hup.
  by rewrite Hsh, Htb.
Qed.

(** X13.  Fetching the inquiries reads the sheet once and does nothing
    else to the outside: no model call, insert, post or update, and the
    sheet and the table are as before.  It returns the selection of the
    rows read; an answer without a [values] entry gives the empty list,
    and an exception of the read is passed on. *)
Theorem fetch_reads_once {W} (svc : Services W) (st : state W) :
  sheet (fetch_new_inquiries svc st).2 = sheet st
  ∧ table (fetch_new_inquiries svc st).2 = table st
  ∧ (∃ added, trace (fetch_new_inquiries svc st).2 = trace st ++ SheetRead :: added
       ∧ Forall (λ e, is_print e = true) added)
  ∧ (∀ result w, sheets_get svc (hidden st) = (Done result, w) →
       (fetch_new_inquiries svc st).1 = Done (select_inquiries (default [] result)))
  ∧ (∀ w, sheets_get svc (hidden st) = (Done None, w) →
       (fetch_new_inquiries svc st).1 = Done [])
  ∧ (∀ e w, sheets_get svc (hidden st) = (Raised e, w) →
       fetch_new_inquiries svc st = (Raised e, extend (with_hidden w st) [SheetRead])).
Proof.
  rewrite fetch_new_inquiries_run.
  destruct (sheets_get svc (hidden st)) as [[result|e] w]; cbv zeta;
    cbn [fst snd sheet table trace extend with_hidden].
  - repeat split; try done.
    + eexists. split; [reflexivity|]. by repeat constructor.
    + by intros ? ? [= -> _].
    + by intros ? [= -> _].
  - repeat split; try done.
    + exists []. by split.
    + by intros ? ? [= -> ->].
Qed.

(** ** Worked examples of the further properties *)

Lemma row_dict_lookup_witness :
  row_dict sample_header ["2024-05-01"; "Acme"] !! "Company Name" = Some "Acme"
  ∧ row_dict sample_header ["2024-05-01"; "Acme"] !! "Status"
    = ["2024-05-01"; "Acme"] !! 5%nat
  ∧ row_dict sample_header ["2024-05-01"; "Acme"] !! "Score" = None.
Proof.
  pose proof (row_dict_lookup sample_header ["2024-05-01"; "Acme"]) as (Hout & Hlast & Hnd).
  split; [|split].
  - apply (Hlast 1%nat); [reflexivity | reflexivity |].
    intros j Hi Hj. simpl in Hj. lia.
  - refine (Hnd _ 5%nat _ _); [|reflexivity].
    apply (bool_decide_unpack _). vm_compute. exact I.
  - apply Hout. apply (bool_decide_unpack _). vm_compute. exact I.
Defined.

Lemma cleaned_text_shape_witness :
  clean_response (" " +:+ sample_answer +:+ LF) = clean_response sample_answer.
Proof.
  apply (proj2 (proj2 (proj2 (cleaned_text_shape sample_answer)))); reflexivity.
Defined.

Lemma setup_database_creates_once_witness :
  ∃ t, setup_database ∅ !! "opportunities" = Some t
       ∧ tbl_rows t = []
       ∧ col_name <$> filter (λ c, col_autoincrement c = false) (tbl_columns t)
         = insert_columns
       ∧ length (tbl_columns t) = S (length (insert_params ∅ ∅)).
Proof.
  apply (proj2 (proj2 (proj2 (proj2 (setup_database_creates_once ∅))))). reflexivity.
Defined.

Lemma classifier_returns_objects_witness :
  (analyze_with_ai (all_fine sample_answer) (VStr "B2B SaaS for logistics") start).1
  = Done (Some sample_result).
Proof.
  apply (proj1 (classifier_returns_objects (all_fine sample_answer)
                  (VStr "B2B SaaS for logistics") start) sample_result).
  exists sample_answer. split; vm_compute; reflexivity.
Defined.

Lemma store_failure_leaves_table_witness :
  table (store_in_database store_down sample_inquiry sample_result start).2 = table start.
Proof.
  refine (proj1 (proj2 (store_failure_leaves_table store_down sample_inquiry
                          sample_result start (ServiceError "OperationalError") 1%nat _))).
  vm_compute. reflexivity.
Defined.

Lemma notifier_effects_witness :
  send_slack_alert (all_fine sample_answer) sample_inquiry null_score_result start
  = (Raised TypeError, start).
Proof.
  refine (proj1 (proj2 (proj2 (proj2
            (notifier_effects (all_fine sample_answer) sample_inquiry
               null_score_result start)))) VNone _ I).
  vm_compute. reflexivity.
Defined.

Lemma write_back_failure_leaves_sheet_witness :
  sheet (update_sheet sheet_down (VInt 2) sample_result start).2 = sheet start.
Proof.
  refine (proj2 (proj2 (write_back_failure_leaves_sheet sheet_down (VInt 2)
                          sample_result start)
                   (ServiceError "HttpError") 1%nat _)).
  vm_compute. reflexivity.
Defined.

Lemma inquiry_effects_witness :
  sheet (process_inquiry sheet_down sample_inquiry start).2 = sheet start
  ∧ sheet (process_inquiry (all_fine sample_answer) sample_inquiry start).2 !! (3, 6)
    = sheet start !! (3, 6).
Proof.
  split.
  - destruct (inquiry_effects sheet_down sample_inquiry start)
      as (added & rows & _ & _ & _ & _ & _ & _ & _ & Hraise & _).
    apply (Hraise (ServiceError "HttpError")). vm_compute. reflexivity.
  - destruct (inquiry_effects (all_fine sample_answer) sample_inquiry start)
      as (added & rows & _ & _ & _ & _ & _ & _ & _ & _ & Hframe).
    apply Hframe. intros [Hrow _]. vm_compute in Hrow. discriminate Hrow.
Defined.

Lemma run_effects_witness :
  sheet (main (all_fine sample_answer) start).2 !! (1, 6) = sheet start !! (1, 6)
  ∧ sheet (main (all_fine sample_answer) start).2 !! (2, 5) = sheet start !! (2, 5).
Proof.
  split.
  - apply (proj2 (proj2 (proj2 (run_effects (all_fine sample_answer) start)))).
    left. lia.
  - apply (proj2 (proj2 (proj2 (run_effects (all_fine sample_answer) start)))).
    right. left. unfold col_F. lia.
Defined.

Lemma loop_effects_witness :
  process_all store_down ([sample_inquiry] ++ [no_description_inquiry]) start
  = process_all store_down [sample_inquiry] start.
Proof.
  apply (proj1 (proj2 (loop_effects store_down [sample_inquiry] [no_description_inquiry]
                         start)) (ServiceError "OperationalError")).
  vm_compute. reflexivity.
Defined.

Lemma inquiry_fully_processed_witness :
  process_inquiry (all_fine sample_answer) sample_inquiry start
  = (Done tt,
     Build_state 4%nat
       (write_back (VInt 2) (update_cells sample_result) (sheet start))
       (table start ++ [insert_params sample_inquiry sample_result])
       (trace (send_slack_alert (all_fine sample_answer) sample_inquiry sample_result
                 (Build_state 2%nat (sheet start)
                    (table start ++ [insert_params sample_inquiry sample_result])
                    (trace start
                     ++ [Print (LProcessing (py_get sample_inquiry "Company Name"));
                         AICall (py_get sample_inquiry "Opportunity Description");
                         Print (LAISuccess (py_get sample_result "alignment_score"));
                         DBInsert (insert_params sample_inquiry sample_result);
                         Print (LStored (py_get sample_inquiry "Company Name"))]))).2
        ++ [SheetUpdate (VInt 2) (update_cells sample_result);
            Print (LSheetUpdated (VInt 2))])).
Proof.
  refine (inquiry_fully_processed (all_fine sample_answer) sample_inquiry start
            sample_answer 1%nat sample_result 2%nat _ (VInt 2) 4%nat _ _ _ _ _ _ _ _).
  - vm_compute. reflexivity.
  - vm_compute. reflexivity.
  - vm_compute. reflexivity.
  - intros H. apply (f_equal (λ m : gmap string pyval, m !! "summary")) in H.
    vm_compute in H. discriminate H.
  - vm_compute. reflexivity.
  - vm_compute. reflexivity.
  - vm_compute. reflexivity.
  - vm_compute. reflexivity.
Defined.

Lemma fetch_reads_once_witness :
  (fetch_new_inquiries header_only start).1 = Done [].
Proof.
  refine (proj1 (proj2 (proj2 (proj2 (fetch_reads_once header_only start))))
            (Some [sample_header]) 1%nat _).
  vm_compute. reflexivity.
Defined.

(** ** Closing the loop *)

Lemma row_dict_nodup (header row : list string) i k :
  NoDup header → header !! i = Some k → row_dict header row !! k = row !! i.
Proof.
  intros Hnd Hh. unfold row_dict, py_dict. destruct (row !! i) as [v|] eqn:Hr.
  - apply (py_dict_zip_last header row ∅ i); [done | done |].
    intros j Hij _ Hj. pose proof (NoDup_lookup _ _ _ _ Hnd Hh Hj). lia.
  - rewrite py_dict_zip_other; [done|].
    intros j Hj Hhj. pose proof (NoDup_lookup _ _ _ _ Hnd Hh Hhj). subst j.
    apply lookup_ge_None in Hr. lia.
Qed.

(** X14.  What the write-back enters as status takes a row out of the
    selection: under a header without repeated names, a data row whose
    [Status] cell holds the first value of the row that [update_sheet]
    writes is not selected, so no inquiry of the next fetch carries its
    position. *)
Theorem marked_row_is_not_selected (header : list string) (rows : list (list string))
    (n i : nat) (row : list string) ai_result s :
  NoDup header →
  header !! i = Some "Status" →
  rows !! n = Some row →
  update_cells ai_result !! 0%nat = Some (VStr s) →
  row !! i = Some s →
  (n ∉ blank_indices header rows)
  ∧ Forall (λ inquiry, inquiry !! "row_index" ≠ Some (VInt (Z.of_nat n + 2)))
      (select_inquiries (header :: rows)).
Proof.
  intros Hnd Hh Hrow Hs Hcell. injection Hs as <-.
  assert (n ∉ blank_indices header rows) as Hn.
  { rewrite blank_indices_elem. intros (row' & Hrow' & Hb).
    rewrite Hrow in Hrow'. injection Hrow' as <-.
    unfold status_blank in Hb. by rewrite (row_dict_nodup header row i), Hcell in Hb. }
  split; [done|].
  assert (select_inquiries (header :: rows)
          = inquiry_at header rows <$> blank_indices header rows) as ->.
  { unfold select_inquiries. destruct rows as [|r rs]; [done|].
    cbn [length]. destruct (Z.ltb_spec (Z.of_nat (S (S (length rs)))) 2); [lia|].
    apply select_from_zero. }
  apply Forall_fmap, Forall_forall. intros m Hm.
  unfold compose, inquiry_at, inquiry_of. rewrite lookup_insert_eq.
  intros [= Heq]. assert (m = n) as -> by lia. done.
Qed.

Lemma marked_row_is_not_selected_witness :
  (1%nat ∉ blank_indices sample_header (tail sample_tab))
  ∧ Forall (λ inquiry, inquiry !! "row_index" ≠ Some (VInt (Z.of_nat 1 + 2)))
      (select_inquiries (sample_header :: tail sample_tab)).
Proof.
  refine (marked_row_is_not_selected sample_header (tail sample_tab) 1 5
            ["2024-05-02"; "Beta"; "b@beta.pk"; "beta.pk"; "Retail app"; "Processed"]
            sample_result "Processed" _ _ _ _ _); try reflexivity.
  apply (bool_decide_unpack _). vm_compute. exact I.
Defined.
